(** * VoiceGuard: the inference orchestrator of [services/geminiService.ts]

    A shallow embedding of [analyzeAudio] (prompt and schema construction,
    the retrying helper [attemptAnalysis]), of the handlers of the
    application component ([handleAudioReady], [handleSubmit]) and of
    the audio uploader component (file intake, recorder, clock), together
    with the properties of the retry / fallback ladder and of the path
    from an uploaded or recorded sample to the request.

    Conventions.
    - A JS string is a [string]; all needles searched with [includes] are
      ASCII, so searching bytes or UTF-16 code units gives the same answer.
    - The integers the code computes with (budgets, milliseconds) are far
      below 2^53, so they are modelled as [Z] without rounding.
    - A promise that settles is a [Completion]: fulfilled with a value or
      rejected with the thrown error.
    - Everything observable (remote calls, waits, console output) is
      recorded, in order, as a list of [Event]s. *)

From Equations Require Import Equations.
From Stdlib Require Import String Ascii List ZArith QArith Arith Lia Bool DecimalString.
From Stdlib Require Import Strings.Byte DecimalNat.
Import ListNotations.
Local Open Scope string_scope.

(* ================================================================== *)
(** ** Strings *)

Module Str.

(** The double-quote character, and a line feed. *)
Definition dq : string := String "034"%char EmptyString.
Definition nl : string := String "010"%char EmptyString.

(** [String.prototype.startsWith]. *)
Fixpoint startsWith (needle hay : string) : bool :=
  match needle, hay with
  | EmptyString, _ => true
  | String _ _, EmptyString => false
  | String a n', String b h' => Ascii.eqb a b && startsWith n' h'
  end.

(** [String.prototype.includes]: does [needle] occur in [hay]? *)
Fixpoint includes (hay needle : string) : bool :=
  startsWith needle hay ||
  match hay with
  | EmptyString => false
  | String _ h' => includes h' needle
  end.

(** [Array.prototype.join] over lines. *)
Fixpoint join (sep : string) (xs : list string) : string :=
  match xs with
  | [] => ""
  | [x] => x
  | x :: rest => x ++ sep ++ join sep rest
  end.

(** Decimal rendering of a number inside a template literal. *)
Definition ofNat (n : nat) : string :=
  NilEmpty.string_of_uint (Nat.to_uint n).

End Str.

(* ================================================================== *)
(** ** Values exchanged with the platform *)

(** A value produced by [JSON.parse].  A number is kept as its exact
    rational value. *)
#[warnings="-register-all"]
Inductive Json : Type :=
| JNull
| JBool (b : bool)
| JNumber (q : Q)
| JString (s : string)
| JArray (items : list Json)
| JObject (members : list (string * Json)).

(** A thrown value, as far as the code looks at it: [error?.message]. *)
Record JsError : Type := mkError {
  errName : string;
  errMessage : option string
}.

(** [new Error(msg)]. *)
Definition Error (msg : string) : JsError := mkError "Error" (Some msg).

(** Normal or abrupt completion of a statement list. *)
Definition Exn (A : Type) : Type := (A + JsError)%type.

Definition ret {A} (a : A) : Exn A := inl a.
Definition throw {A} (e : JsError) : Exn A := inr e.
Definition bind {A B} (c : Exn A) (k : A -> Exn B) : Exn B :=
  match c with
  | inl a => k a
  | inr e => inr e
  end.

Notation "x <- c ;; k" := (bind c (fun x => k))
  (at level 61, c at next level, right associativity).

(** How the promise of an async function settles. *)
Inductive Completion : Type :=
| Returned (v : Json)
| Thrown (e : JsError).

(* ================================================================== *)
(** ** A reading of [JSON.parse]

    The orchestrator is parametric in the platform's [JSON.parse] (see
    [Section Orchestrator]); this module supplies the JSON grammar of
    ECMA-404 so that concrete response bodies can be run.  Strings are
    byte strings: a [\uXXXX] escape is stored as the UTF-8 encoding of
    its code unit.  The text of a [SyntaxError] is engine-defined and is
    supplied by the caller of [parseWith]. *)

Module JSON.

Local Open Scope char_scope.

Definition isWhitespace (c : ascii) : bool :=
  match c with
  | " " | "009" | "010" | "013" => true
  | _ => false
  end.

Fixpoint skipWhitespace (s : string) : string :=
  match s with
  | String c r => if isWhitespace c then skipWhitespace r else s
  | EmptyString => s
  end.

Definition digitOf (c : ascii) : option Z :=
  let n := nat_of_ascii c in
  if (48 <=? n)%nat && (n <=? 57)%nat then Some (Z.of_nat (n - 48)) else None.

Definition hexOf (c : ascii) : option nat :=
  let n := nat_of_ascii c in
  if (48 <=? n)%nat && (n <=? 57)%nat then Some (n - 48)%nat
  else if (65 <=? n)%nat && (n <=? 70)%nat then Some (n - 55)%nat
  else if (97 <=? n)%nat && (n <=? 102)%nat then Some (n - 87)%nat
  else None.

(** A run of decimal digits: its value, its length, and the rest. *)
Fixpoint digits (acc : Z) (count : nat) (s : string) : Z * nat * string :=
  match s with
  | String c r =>
      match digitOf c with
      | Some d => digits (acc * 10 + d) (S count) r
      | None => (acc, count, s)
      end
  | EmptyString => (acc, count, s)
  end.

(** The value [m * 10^e] as a rational. *)
Definition scale10 (m e : Z) : Q :=
  if (0 <=? e)%Z then inject_Z (m * 10 ^ e)
  else Qmake m (Z.to_pos (10 ^ (- e))).

(** [-? int frac? exp?] *)
Definition number (s : string) : option (Q * string) :=
  let '(neg, s1) :=
    match s with
    | String "-" r => (true, r)
    | _ => (false, s)
    end in
  let '(ip, ic, s2) := digits 0 0 s1 in
  let leadingZero :=
    match s1 with
    | String "0" _ => (1 <? ic)%nat
    | _ => false
    end in
  if (ic =? 0)%nat || leadingZero then None else
  let frac :=
    match s2 with
    | String "." r =>
        let '(fp, fc, s3) := digits ip 0 r in
        if (fc =? 0)%nat then None else Some (fp, Z.of_nat fc, s3)
    | _ => Some (ip, 0%Z, s2)
    end in
  match frac with
  | None => None
  | Some (m, fc, s3) =>
      let expo :=
        match s3 with
        | String c r =>
            if Ascii.eqb c "e" || Ascii.eqb c "E" then
              let '(eneg, r1) :=
                match r with
                | String "-" r' => (true, r')
                | String "+" r' => (false, r')
                | _ => (false, r)
                end in
              let '(ev, ec, s4) := digits 0 0 r1 in
              if (ec =? 0)%nat then None
              else Some (if eneg then (- ev)%Z else ev, s4)
            else Some (0%Z, s3)
        | EmptyString => Some (0%Z, s3)
        end in
      match expo with
      | None => None
      | Some (e, s4) =>
          Some (scale10 (if neg then (- m)%Z else m) (e - fc), s4)
      end
  end.

(** UTF-8 bytes of a code unit below 2^16. *)
Definition utf8 (n : nat) : string :=
  if (n <? 128)%nat then String (ascii_of_nat n) EmptyString
  else if (n <? 2048)%nat then
    String (ascii_of_nat (192 + n / 64))
      (String (ascii_of_nat (128 + n mod 64)) EmptyString)
  else
    String (ascii_of_nat (224 + n / 4096))
      (String (ascii_of_nat (128 + (n / 64) mod 64))
         (String (ascii_of_nat (128 + n mod 64)) EmptyString)).

Definition escapeOf (c : ascii) : option ascii :=
  match c with
  | "034" => Some "034"
  | "\" => Some "\"
  | "/" => Some "/"
  | "b" => Some "008"
  | "f" => Some "012"
  | "n" => Some "010"
  | "r" => Some "013"
  | "t" => Some "009"
  | _ => None
  end.

(** The characters after an opening quote, up to the closing one. *)
Fixpoint stringBody (s : string) : option (string * string) :=
  match s with
  | EmptyString => None
  | String "034" r => Some (EmptyString, r)
  | String "\" (String "u" (String a (String b (String c (String d r))))) =>
      match hexOf a, hexOf b, hexOf c, hexOf d, stringBody r with
      | Some x3, Some x2, Some x1, Some x0, Some (body, rest) =>
          Some (append (utf8 (x3 * 4096 + x2 * 256 + x1 * 16 + x0)) body, rest)
      | _, _, _, _, _ => None
      end
  | String "\" (String e r) =>
      match escapeOf e, stringBody r with
      | Some ch, Some (body, rest) => Some (String ch body, rest)
      | _, _ => None
      end
  | String "\" EmptyString => None
  | String c r =>
      if (nat_of_ascii c <? 32)%nat then None else
      match stringBody r with
      | Some (body, rest) => Some (String c body, rest)
      | None => None
      end
  end.

Definition literal (word : string) (v : Json) (s : string) : option (Json * string) :=
  if Str.startsWith word s
  then Some (v, substring (String.length word) (String.length s - String.length word) s)
  else None.

(** [value], the elements after a bracket and the members after a brace. *)
Fixpoint value (fuel : nat) (s : string) : option (Json * string) :=
  match fuel with
  | O => None
  | S fuel' =>
      match skipWhitespace s with
      | String "{" r =>
          match skipWhitespace r with
          | String "}" r' => Some (JObject [], r')
          | r' =>
              match members fuel' r' with
              | Some (ms, rest) => Some (JObject ms, rest)
              | None => None
              end
          end
      | String "[" r =>
          match skipWhitespace r with
          | String "]" r' => Some (JArray [], r')
          | r' =>
              match elements fuel' r' with
              | Some (vs, rest) => Some (JArray vs, rest)
              | None => None
              end
          end
      | String "034" r =>
          match stringBody r with
          | Some (str, rest) => Some (JString str, rest)
          | None => None
          end
      | String "t" _ as s' => literal "true" (JBool true) s'
      | String "f" _ as s' => literal "false" (JBool false) s'
      | String "n" _ as s' => literal "null" JNull s'
      | s' =>
          match number s' with
          | Some (q, rest) => Some (JNumber q, rest)
          | None => None
          end
      end
  end

with elements (fuel : nat) (s : string) : option (list Json * string) :=
  match fuel with
  | O => None
  | S fuel' =>
      match value fuel' s with
      | Some (v, rest) =>
          match skipWhitespace rest with
          | String "," r =>
              match elements fuel' r with
              | Some (vs, rest') => Some (v :: vs, rest')
              | None => None
              end
          | String "]" r => Some ([v], r)
          | _ => None
          end
      | None => None
      end
  end

with members (fuel : nat) (s : string) : option (list (string * Json) * string) :=
  match fuel with
  | O => None
  | S fuel' =>
      match skipWhitespace s with
      | String "034" r =>
          match stringBody r with
          | Some (key, rest) =>
              match skipWhitespace rest with
              | String ":" r1 =>
                  match value fuel' r1 with
                  | Some (v, rest1) =>
                      match skipWhitespace rest1 with
                      | String "," r2 =>
                          match members fuel' r2 with
                          | Some (ms, rest2) => Some ((key, v) :: ms, rest2)
                          | None => None
                          end
                      | String "}" r2 => Some ([(key, v)], r2)
                      | _ => None
                      end
                  | None => None
                  end
              | _ => None
              end
          | None => None
          end
      | _ => None
      end
  end.

(** A whole text: one value, then only whitespace. *)
Definition parse (text : string) : option Json :=
  match value (2 * String.length text + 2) text with
  | Some (v, rest) =>
      match skipWhitespace rest with
      | EmptyString => Some v
      | _ => None
      end
  | None => None
  end.

(** [JSON.parse] on an engine whose [SyntaxError] for [text] reads
    [describe text]. *)
Definition parseWith (describe : string -> string) (text : string) : Exn Json :=
  match parse text with
  | Some v => ret v
  | None => throw (mkError "SyntaxError" (Some (describe text)))
  end.

(** Property read of a parsed value: the last member of that name. *)
Fixpoint lookup (key : string) (ms : list (string * Json)) : option Json :=
  match ms with
  | [] => None
  | (k, v) :: rest =>
      match lookup key rest with
      | Some v' => Some v'
      | None => if String.eqb k key then Some v else None
      end
  end.

Definition get (key : string) (v : Json) : option Json :=
  match v with
  | JObject ms => lookup key ms
  | _ => None
  end.

End JSON.

(* ================================================================== *)
(** ** The request sent to the model *)

Inductive SchemaType : Type := OBJECT | STRING | NUMBER.

Record PropertySchema : Type := {
  ptype : SchemaType;
  penum : option (list string);
  pdescription : string
}.

Record Schema : Type := {
  stype : SchemaType;
  properties : list (string * PropertySchema);
  required : list string
}.

Inductive Part : Type :=
| InlineData (mimeType data : string)
| TextPart (text : string).

(** [configWithThinking]: the spread of [requestBody.config] plus the two
    per-tier fields. *)
Record Config : Type := {
  responseMimeType : string;
  responseSchema : Schema;
  thinkingBudget : Z;
  maxOutputTokens : Z
}.

Record GenerateContentParams : Type := {
  model : string;
  contents : list Part;
  config : Config
}.

(** What [ai.models.generateContent] hands back: [response.text] is a
    string or [undefined]. *)
Record Response : Type := { text : option string }.

Inductive Event : Type :=
| EvCall (p : GenerateContentParams)      (* ai.models.generateContent *)
| EvWait (ms : Z)                         (* await wait(ms) *)
| EvWarn (line : string)                  (* console.warn *)
| EvLog (line : string)                   (* console.log *)
| EvError (e : JsError).                  (* console.error *)

Definition PRO : string := "gemini-3-pro-preview".
Definition FLASH : string := "gemini-3-flash-preview".

(* ================================================================== *)
(** ** Prompt and schema *)

Definition i6 : string := "      ".

(** The five numbered lines under EVALUATION CRITERIA. *)
Definition criteria : list string :=
  [ i6 ++ "1. **Breath & Pauses**: Real humans breathe. AI often forgets to breathe or places breaths at unnatural intervals.";
    i6 ++ "2. **Prosody & Intonation**: Human speech has irregular pitch curves. AI often produces "
       ++ Str.dq ++ "flat" ++ Str.dq ++ " or " ++ Str.dq ++ "perfectly cyclic" ++ Str.dq ++ " pitch patterns.";
    i6 ++ "3. **Spectral Artifacts**: Listen for metallic ringing, phasing, or high-frequency buzz typical of neural vocoders.";
    i6 ++ "4. **Micro-details**: Lip smacks, tongue clicks, and throat clearing are strong indicators of HUMAN speech.";
    i6 ++ "5. **Background**: Absolute digital silence between words is a strong indicator of AI_GENERATED." ].

(** The two lines under DECISION LOGIC. *)
Definition decisionLogic : list string :=
  [ i6 ++ "- If it sounds " ++ Str.dq ++ "too perfect" ++ Str.dq ++ ", it is likely AI.";
    i6 ++ "- If it has natural imperfections (breaths, clicks, variable pace), it is likely HUMAN." ].

(** The lines of the template literal [prompt]; the closing backquote
    stands after four blanks on a line of its own. *)
Definition promptLines (language : string) : list string :=
  List.concat
    [ [ "";
        i6 ++ "You are a specialized Audio Forensics AI participating in a Deepfake Detection Challenge.";
        i6;
        i6 ++ "TARGET: Classify the input audio as either 'AI_GENERATED' or 'HUMAN'.";
        i6 ++ "LANGUAGE: " ++ language;
        i6;
        i6 ++ "EVALUATION CRITERIA:" ];
      criteria;
      [ i6;
        i6 ++ "DECISION LOGIC:" ];
      decisionLogic;
      [ i6;
        i6 ++ "OUTPUT: Return a JSON object with the classification, a confidence score (0.0-1.0), and a brief technical explanation.";
        "    " ] ].

Definition prompt (language : string) : string :=
  Str.join Str.nl (promptLines language).

(** [requestBody.config.responseSchema]. *)
Definition responseSchema_ : Schema :=
  {| stype := OBJECT;
     properties :=
       [ ("classification",
          {| ptype := STRING;
             penum := Some ["AI_GENERATED"; "HUMAN"];
             pdescription := "The definitive classification." |});
         ("confidence",
          {| ptype := NUMBER;
             penum := None;
             pdescription := "Confidence score (0.0 to 1.0)." |});
         ("explanation",
          {| ptype := STRING;
             penum := None;
             pdescription := "Technical forensic explanation." |}) ];
     required := ["classification"; "confidence"; "explanation"] |}.

(** [requestBody.contents.parts]. *)
Definition requestContents (base64Data mimeType language : string) : list Part :=
  [ InlineData mimeType base64Data; TextPart (prompt language) ].

(** [configWithThinking] for a reasoning budget. *)
Definition configWithThinking (budget : Z) : Config :=
  {| responseMimeType := "application/json";
     responseSchema := responseSchema_;
     thinkingBudget := budget;
     maxOutputTokens := budget + 4096 |}.

(* ================================================================== *)
(** ** Error classification *)

(** [error?.message || ''] *)
Definition messageOf (e : JsError) : string :=
  match errMessage e with
  | Some m => m
  | None => ""
  end.

(** The [isQuota] test of [attemptAnalysis]. *)
Definition isQuota (msg : string) : bool :=
  Str.includes msg "429" || Str.includes msg "quota" || Str.includes msg "resource exhausted".

(** [!text] for a string-or-undefined. *)
Definition falsy (t : option string) : bool :=
  match t with
  | None => true
  | Some "" => true
  | Some _ => false
  end.

Definition textOf (t : option string) : string :=
  match t with
  | Some s => s
  | None => ""
  end.

(** The ladder position as a number that every recursive call of
    [attemptAnalysis] lowers. *)
Definition rung (model : string) (retryCount : nat) : nat :=
  (if string_dec model PRO then 3 else 0) + (2 - retryCount).

Definition emit (evs : list Event) (r : Completion * list Event)
  : Completion * list Event :=
  (fst r, (evs ++ snd r)%list).

Section Orchestrator.

(** The platform's [JSON.parse]: a value, or a thrown [SyntaxError]
    whose message is the engine's own. *)
Variable JSON_parse : string -> Exn Json.

(** The remote model.  [generateContent n p] is what the [n]-th call
    (counting from 0) of the request answers to parameters [p]: a
    response or a rejection. *)
Variable generateContent : nat -> GenerateContentParams -> Exn Response.

(** The arguments of [analyzeAudio]. *)
Variables base64Data mimeType language : string.

Definition paramsFor (model : string) (budget : Z) : GenerateContentParams :=
  {| model := model;
     contents := requestContents base64Data mimeType language;
     config := configWithThinking budget |}.

(** The [try] block of [attemptAnalysis]. *)
Definition tryBlock (model : string) (budget : Z) (n : nat) : Exn Json :=
  response <- generateContent n (paramsFor model budget) ;;
  if falsy (text response)
  then throw (Error "Empty response from Gemini")
  else JSON_parse (textOf (text response)).

Definition quotaWarning (model : string) (retryCount : nat) : string :=
  "[Quota Limit] Model: " ++ model ++ ", Attempt: " ++ Str.ofNat (retryCount + 1).

(** [attemptAnalysis model budget retryCount], started when [n] remote
    calls have been issued; returns how the promise settles and the
    events of this call and of the calls it makes. *)
Equations? attemptAnalysis (model : string) (budget : Z) (retryCount : nat) (n : nat)
  : Completion * list Event by wf (rung model retryCount) lt :=
  attemptAnalysis model budget retryCount n with tryBlock model budget n => {
    | inl result := (Returned result, [EvCall (paramsFor model budget)]);
    | inr error with isQuota (messageOf error) => {
        | false := (Thrown error, [EvCall (paramsFor model budget)]);
        | true with lt_dec retryCount 2 => {
            | left _ :=
                emit [ EvCall (paramsFor model budget);
                       EvWarn (quotaWarning model retryCount);
                       EvWait (2000 * (Z.of_nat retryCount + 1)) ]
                     (attemptAnalysis model budget (retryCount + 1) (n + 1));
            | right _ with string_dec model PRO => {
                | left _ :=
                    emit [ EvCall (paramsFor model budget);
                           EvWarn (quotaWarning model retryCount);
                           EvLog "Switching to Gemini 3 Flash for fallback..." ]
                         (attemptAnalysis FLASH 1024 0 (n + 1));
                | right _ :=
                    (Thrown error, [ EvCall (paramsFor model budget);
                                     EvWarn (quotaWarning model retryCount) ])
              }
          }
      }
  }.
Proof.
  - unfold rung. lia.
  - unfold rung.
    destruct (string_dec PRO PRO); [|congruence].
    destruct (string_dec FLASH PRO); [discriminate|]. lia.
Qed.

(** [analyzeAudio(base64Data, mimeType, language)]. *)
Definition analyzeAudio : Completion * list Event :=
  attemptAnalysis PRO 2048 0 0.

End Orchestrator.

(* ================================================================== *)
(** ** The submit handler of the application component *)

Module App.

Record AudioData : Type := {
  base64 : string;
  mimeType : string
}.

(** The pieces of React state [handleSubmit] reads and writes. *)
Record State : Type := {
  audioData : option AudioData;
  language : string;
  isProcessing : bool;
  result : option Json;
  error : option string
}.

Definition HIGH_TRAFFIC : string :=
  "System is experiencing high traffic. Please wait 10 seconds and try again.".
Definition SAFETY : string :=
  "The audio content was flagged by safety filters. Please try a different sample.".
Definition GENERIC : string :=
  "Could not analyze audio. Please ensure the file is a valid audio format.".

(** What [setResult(v)] leaves in the state: the state is [null] when
    the value is JSON [null]. *)
Definition held (v : Json) : option Json :=
  match v with
  | JNull => None
  | _ => Some v
  end.

(** The [catch] block: which text [setError] receives. *)
Definition errorText (err : JsError) : string :=
  let msg := messageOf err in
  if Str.includes msg "429" || Str.includes msg "quota" then HIGH_TRAFFIC
  else if Str.includes msg "safety" || Str.includes msg "blocked" then SAFETY
  else GENERIC.

(** [handleAudioReady]: a new sample (or none) replaces the old one and
    wipes the result and the error on display. *)
Definition handleAudioReady (data : option AudioData) (st : State) : State :=
  {| audioData := data;
     language := language st;
     isProcessing := isProcessing st;
     result := None;
     error := None |}.

Section Submit.

Variable JSON_parse : string -> Exn Json.
Variable generateContent : nat -> GenerateContentParams -> Exn Response.

(** [handleSubmit]: the state once the handler has run, and what
    happened meanwhile. *)
Definition handleSubmit (st : State) : State * list Event :=
  match audioData st with
  | None => (st, [])
  | Some audio =>
      let run :=
        analyzeAudio JSON_parse generateContent
                     (base64 audio) (mimeType audio) (language st) in
      match fst run with
      | Returned resultData =>
          ({| audioData := audioData st;
              language := language st;
              isProcessing := false;
              result := held resultData;
              error := None |},
           snd run)
      | Thrown err =>
          ({| audioData := audioData st;
              language := language st;
              isProcessing := false;
              result := None;
              error := Some (errorText err) |},
           (snd run ++ [EvError err])%list)
      end
  end.

End Submit.

End App.

(* ================================================================== *)
(** ** The audio uploader component

    Handlers are modelled on the committed React state: each one maps the
    state it was rendered with to the state after its updates, with the
    effects it causes in order.  The refs ([mediaRecorderRef],
    [chunksRef], [timerRef], [audioRef]) are fields of the same record.
    The browser is a parameter: [readAsDataURL] is what a [FileReader]
    ends with, [createObjectURL] names a blob. *)

Module Uploader.

Record Blob : Type := {
  type : string;
  content : list Byte.byte
}.

(** [blob.size] *)
Definition size (b : Blob) : Z := Z.of_nat (length (content b)).

(** A [File] is a [Blob] with a name. *)
Record File : Type := {
  name : string;
  data : Blob
}.

(** [new Blob(chunks, { type })] *)
Definition newBlob (chunks : list Blob) (ty : string) : Blob :=
  {| type := ty; content := List.concat (map content chunks) |}.

(** The object handed to [onAudioReady]; [base64] is [undefined] when
    the data URL holds no comma. *)
Record AudioData : Type := {
  base64 : option string;
  mimeType : string;
  blob : Blob
}.

(** The hidden [<audio>] element behind [audioRef]. *)
Record AudioElement : Type := {
  paused : bool;
  currentTime : Q
}.

Record State : Type := {
  isDragging : bool;
  file : option File;
  isRecording : bool;
  audioUrl : option string;
  recordingTime : nat;
  isPlaying : bool;
  mediaRecorderRef : bool;            (* [current] is set *)
  chunksRef : list Blob;
  timerRef : option Z;
  audioRef : option AudioElement
}.

Inductive Effect : Type :=
| Alert (message : string)                 (* alert(...) *)
| AudioReady (d : option AudioData)        (* onAudioReady(...) *)
| ConsoleError (e : JsError)               (* console.error(...) *)
| PreventDefault                           (* e.preventDefault() *)
| RecorderStart                            (* mediaRecorder.start() *)
| RecorderStop                             (* mediaRecorderRef.current.stop() *)
| ClearInterval (id : Z)                   (* clearInterval(...) *)
| StopTracks                               (* stream.getTracks().forEach(stop) *)
| Unhandled (e : JsError).                 (* the handler's promise rejects *)

(** The state setters. *)
Definition setIsDragging (v : bool) (st : State) : State :=
  {| isDragging := v; file := file st; isRecording := isRecording st;
     audioUrl := audioUrl st; recordingTime := recordingTime st;
     isPlaying := isPlaying st; mediaRecorderRef := mediaRecorderRef st;
     chunksRef := chunksRef st; timerRef := timerRef st;
     audioRef := audioRef st |}.

Definition setFile (v : option File) (st : State) : State :=
  {| isDragging := isDragging st; file := v; isRecording := isRecording st;
     audioUrl := audioUrl st; recordingTime := recordingTime st;
     isPlaying := isPlaying st; mediaRecorderRef := mediaRecorderRef st;
     chunksRef := chunksRef st; timerRef := timerRef st;
     audioRef := audioRef st |}.

Definition setIsRecording (v : bool) (st : State) : State :=
  {| isDragging := isDragging st; file := file st; isRecording := v;
     audioUrl := audioUrl st; recordingTime := recordingTime st;
     isPlaying := isPlaying st; mediaRecorderRef := mediaRecorderRef st;
     chunksRef := chunksRef st; timerRef := timerRef st;
     audioRef := audioRef st |}.

Definition setAudioUrl (v : option string) (st : State) : State :=
  {| isDragging := isDragging st; file := file st; isRecording := isRecording st;
     audioUrl := v; recordingTime := recordingTime st;
     isPlaying := isPlaying st; mediaRecorderRef := mediaRecorderRef st;
     chunksRef := chunksRef st; timerRef := timerRef st;
     audioRef := audioRef st |}.

Definition setRecordingTime (v : nat) (st : State) : State :=
  {| isDragging := isDragging st; file := file st; isRecording := isRecording st;
     audioUrl := audioUrl st; recordingTime := v;
     isPlaying := isPlaying st; mediaRecorderRef := mediaRecorderRef st;
     chunksRef := chunksRef st; timerRef := timerRef st;
     audioRef := audioRef st |}.

Definition setIsPlaying (v : bool) (st : State) : State :=
  {| isDragging := isDragging st; file := file st; isRecording := isRecording st;
     audioUrl := audioUrl st; recordingTime := recordingTime st;
     isPlaying := v; mediaRecorderRef := mediaRecorderRef st;
     chunksRef := chunksRef st; timerRef := timerRef st;
     audioRef := audioRef st |}.

(** Assignments to the refs. *)
Definition setMediaRecorderRef (v : bool) (st : State) : State :=
  {| isDragging := isDragging st; file := file st; isRecording := isRecording st;
     audioUrl := audioUrl st; recordingTime := recordingTime st;
     isPlaying := isPlaying st; mediaRecorderRef := v;
     chunksRef := chunksRef st; timerRef := timerRef st;
     audioRef := audioRef st |}.

Definition setChunksRef (v : list Blob) (st : State) : State :=
  {| isDragging := isDragging st; file := file st; isRecording := isRecording st;
     audioUrl := audioUrl st; recordingTime := recordingTime st;
     isPlaying := isPlaying st; mediaRecorderRef := mediaRecorderRef st;
     chunksRef := v; timerRef := timerRef st;
     audioRef := audioRef st |}.

Definition setTimerRef (v : option Z) (st : State) : State :=
  {| isDragging := isDragging st; file := file st; isRecording := isRecording st;
     audioUrl := audioUrl st; recordingTime := recordingTime st;
     isPlaying := isPlaying st; mediaRecorderRef := mediaRecorderRef st;
     chunksRef := chunksRef st; timerRef := v;
     audioRef := audioRef st |}.

Definition setAudioRef (v : option AudioElement) (st : State) : State :=
  {| isDragging := isDragging st; file := file st; isRecording := isRecording st;
     audioUrl := audioUrl st; recordingTime := recordingTime st;
     isPlaying := isPlaying st; mediaRecorderRef := mediaRecorderRef st;
     chunksRef := chunksRef st; timerRef := timerRef st;
     audioRef := v |}.

(** [String.prototype.split] on a one-character separator. *)
Fixpoint split (sep : ascii) (s : string) : list string :=
  match s with
  | EmptyString => [EmptyString]
  | String c r =>
      if Ascii.eqb c sep then EmptyString :: split sep r
      else match split sep r with
           | piece :: rest => String c piece :: rest
           | [] => [String c EmptyString]
           end
  end.

(** [String.prototype.padStart]: [count] characters of [pad], over and
    over, from where [cur] stands in it. *)
Fixpoint filler (count : nat) (pad cur : string) : string :=
  match count with
  | O => EmptyString
  | S k =>
      match cur with
      | String c r => String c (filler k pad r)
      | EmptyString =>
          match pad with
          | String c r => String c (filler k pad r)
          | EmptyString => EmptyString
          end
      end
  end.

Definition padStart (targetLength : nat) (pad s : string) : string :=
  if (targetLength <=? String.length s)%nat then s
  else filler (targetLength - String.length s) pad pad ++ s.

(** [formatTime], on the whole seconds the recording timer counts. *)
Definition formatTime (seconds : nat) : string :=
  let mins := (seconds / 60)%nat in
  let secs := (seconds mod 60)%nat in
  Str.ofNat mins ++ ":" ++ padStart 2 "0" (Str.ofNat secs).

(** [onDragOver], [onDragLeave] *)
Definition onDragOver (st : State) : State * list Effect :=
  (setIsDragging true st, [PreventDefault]).

Definition onDragLeave (st : State) : State * list Effect :=
  (setIsDragging false st, [PreventDefault]).

(** [stopRecording]; a timer id is falsy when it is 0. *)
Definition stopRecording (st : State) : State * list Effect :=
  if mediaRecorderRef st && isRecording st then
    match timerRef st with
    | Some id =>
        if (id =? 0)%Z then (setIsRecording false st, [RecorderStop])
        else (setTimerRef None (setIsRecording false st),
              [RecorderStop; ClearInterval id])
    | None => (setIsRecording false st, [RecorderStop])
    end
  else (st, []).

(** The interval callback: [setRecordingTime(prev => prev + 1)]. *)
Definition tick (st : State) : State :=
  setRecordingTime (recordingTime st + 1) st.

(** [mediaRecorder.ondataavailable] *)
Definition ondataavailable (d : Blob) (st : State) : State :=
  if (0 <? size d)%Z then setChunksRef (chunksRef st ++ [d])%list st else st.

(** [clearAudio] *)
Definition clearAudio (st : State) : State * list Effect :=
  let st1 := setAudioUrl None (setFile None st) in
  let st2 :=
    match audioRef st1 with
    | Some _ => setAudioRef (Some {| paused := true; currentTime := 0 |}) st1
    | None => st1
    end in
  (setIsPlaying false st2, [AudioReady None]).

Section Browser.

(** What the [FileReader] ends with: the data URL, or the error event. *)
Variable readAsDataURL : Blob -> Exn string.

(** [URL.createObjectURL] *)
Variable createObjectURL : Blob -> string.

(** [convertToBase64]: what follows the first comma of the data URL, up
    to the next one. *)
Definition convertToBase64 (b : Blob) : Exn (option string) :=
  result <- readAsDataURL b ;;
  ret (nth_error (split "," result) 1).

(** [handleFile] *)
Definition handleFile (selectedFile : File) (st : State) : State * list Effect :=
  if negb (Str.startsWith "audio/" (type (data selectedFile))) then
    (st, [Alert "Please upload a valid audio file."])
  else if (10 * 1024 * 1024 <? size (data selectedFile))%Z then
    (st, [Alert "File size too large. Please upload a file smaller than 10MB."])
  else
    let st1 := setFile (Some selectedFile) st in
    let st2 := setAudioUrl (Some (createObjectURL (data selectedFile))) st1 in
    match convertToBase64 (data selectedFile) with
    | inl b64 =>
        (st2, [AudioReady (Some {| base64 := b64;
                                   mimeType := type (data selectedFile);
                                   blob := data selectedFile |})])
    | inr e => (st2, [Unhandled e])
    end.

(** [onDrop], with [e.dataTransfer.files] *)
Definition onDrop (files : option (list File)) (st : State) : State * list Effect :=
  let st1 := setIsDragging false st in
  match files with
  | Some (first :: _) =>
      let r := handleFile first st1 in (fst r, PreventDefault :: snd r)
  | _ => (st1, [PreventDefault])
  end.

(** [startRecording]; [mic] is how [getUserMedia] and the construction
    of the recorder end: the id of the interval timer, or the error. *)
Definition startRecording (mic : Exn Z) (st : State) : State * list Effect :=
  match mic with
  | inl timerId =>
      (setTimerRef (Some timerId)
         (setRecordingTime 0
            (setIsRecording true
               (setChunksRef [] (setMediaRecorderRef true st)))),
       [RecorderStart])
  | inr err =>
      (st, [ConsoleError err;
            Alert "Could not access microphone. Please check permissions."])
  end.

(** [mediaRecorder.onstop] *)
Definition onstop (st : State) : State * list Effect :=
  let recorded := newBlob (chunksRef st) "audio/webm" in
  let st1 := setAudioUrl (Some (createObjectURL recorded)) st in
  let st2 :=
    setFile (Some {| name := "recording.webm";
                     data := newBlob [recorded] "audio/webm" |}) st1 in
  match convertToBase64 recorded with
  | inl b64 =>
      (st2, [AudioReady (Some {| base64 := b64;
                                 mimeType := "audio/webm";
                                 blob := recorded |});
             StopTracks])
  | inr e => (st2, [Unhandled e])
  end.

End Browser.

(** What a recorder does between [start] and its [stop] event. *)
Inductive RecorderEvent : Type :=
| Delivered (d : Blob)      (* a dataavailable event *)
| Second.                   (* the interval fires *)

Definition during (ev : RecorderEvent) (st : State) : State :=
  match ev with
  | Delivered d => ondataavailable d st
  | Second => tick st
  end.

(** The data delivered, and the seconds counted, by a list of events. *)
Fixpoint deliveredOf (evs : list RecorderEvent) : list Blob :=
  match evs with
  | [] => []
  | Delivered d :: rest => d :: deliveredOf rest
  | Second :: rest => deliveredOf rest
  end.

Fixpoint secondsOf (evs : list RecorderEvent) : nat :=
  match evs with
  | [] => 0
  | Delivered _ :: rest => secondsOf rest
  | Second :: rest => S (secondsOf rest)
  end.

Definition initial : State :=
  {| isDragging := false; file := None; isRecording := false;
     audioUrl := None; recordingTime := 0; isPlaying := false;
     mediaRecorderRef := false; chunksRef := []; timerRef := None;
     audioRef := None |}.

End Uploader.

(* ================================================================== *)
(** ** The uploader inside the application

    [<AudioUploader onAudioReady={handleAudioReady} ... />]: what the
    uploader announces goes to [handleAudioReady].  The application
    model holds a sample whose [base64] is a string; an announcement
    with an undefined [base64] is outside it ([None]). *)

Definition sampleOf (d : Uploader.AudioData) : option App.AudioData :=
  match Uploader.base64 d with
  | Some b => Some {| App.base64 := b; App.mimeType := Uploader.mimeType d |}
  | None => None
  end.

Definition receive (eff : Uploader.Effect) (st : App.State) : option App.State :=
  match eff with
  | Uploader.AudioReady None => Some (App.handleAudioReady None st)
  | Uploader.AudioReady (Some d) =>
      match sampleOf d with
      | Some a => Some (App.handleAudioReady (Some a) st)
      | None => None
      end
  | _ => Some st
  end.

Fixpoint receiveAll (effs : list Uploader.Effect) (st : App.State) : option App.State :=
  match effs with
  | [] => Some st
  | eff :: rest =>
      match receive eff st with
      | Some st' => receiveAll rest st'
      | None => None
      end
  end.

(* ================================================================== *)
(** ** Reading a trace *)

(** The remote calls of a trace, in order. *)
Fixpoint calls (tr : list Event) : list GenerateContentParams :=
  match tr with
  | [] => []
  | EvCall p :: rest => p :: calls rest
  | _ :: rest => calls rest
  end.

(** The backoff waits of a trace, in order. *)
Fixpoint waits (tr : list Event) : list Z :=
  match tr with
  | [] => []
  | EvWait ms :: rest => ms :: waits rest
  | _ :: rest => waits rest
  end.

(** The time waited before each remote call since the call before it
    ([pending] is what has been waited so far). *)
Fixpoint gaps (pending : Z) (tr : list Event) : list Z :=
  match tr with
  | [] => []
  | EvCall _ :: rest => pending :: gaps 0 rest
  | EvWait ms :: rest => gaps (pending + ms) rest
  | _ :: rest => gaps pending rest
  end.

(** How many times the fallback announcement was logged. *)
Fixpoint switches (tr : list Event) : nat :=
  match tr with
  | [] => 0
  | EvLog _ :: rest => S (switches rest)
  | _ :: rest => switches rest
  end.

Definition onModel (name : string) (p : GenerateContentParams) : bool :=
  String.eqb (model p) name.

(** A settled promise read as a completion of the [try] block. *)
Definition settle (c : Completion) : Exn Json :=
  match c with
  | Returned v => inl v
  | Thrown e => inr e
  end.

(** The backoff waits still ahead on a tier at retry count [retryCount],
    and on the whole ladder from a model at that count. *)
Definition tierWaits (retryCount : nat) : list Z :=
  map (fun k => 2000 * (Z.of_nat k + 1))%Z (seq retryCount (2 - retryCount)).

Definition ladderWaits (m : string) (retryCount : nat) : list Z :=
  (tierWaits retryCount ++ (if string_dec m PRO then tierWaits 0 else []))%list.

(** The calls left on the ladder from a model at a retry count. *)
Definition ladderCalls (m : string) (retryCount : nat) : nat :=
  Nat.max 1 (3 - retryCount) + (if string_dec m PRO then 3 else 0).

(* ================================================================== *)
(** ** The evaluation criteria, in the words of the specification *)

(** The dash of the specification's list, as its three UTF-8 bytes. *)
Definition emdash : string :=
  String "226"%char (String "128"%char (String "148"%char EmptyString)).

(** The five items the specification lists under "Evaluation criteria to
    embed verbatim in the instructions": title and gloss of each. *)
Definition specCriteria : list (string * string) :=
  [ ("Breath/pause naturalness",
     "absent or mistimed breathing suggests synthesis.");
    ("Prosody/intonation irregularity",
     "human pitch curves are irregular; overly flat or cyclic pitch suggests synthesis.");
    ("Spectral artifacts",
     "metallic ringing, phasing, high-frequency buzz suggest a neural vocoder.");
    ("Micro-details",
     "lip smacks, tongue clicks, throat clearing suggest a human source.");
    ("Background noise floor",
     "absolute digital silence between words suggests synthesis.") ].

(** An item as the specification writes it: title, dash, gloss. *)
Definition specSentence (item : string * string) : string :=
  fst item ++ " " ++ emdash ++ " " ++ snd item.

(* ================================================================== *)
(** ** The result invariant, in the words of the specification *)

(** [classification] is one of the two enumerated values. *)
Definition classificationOk (v : Json) : bool :=
  match JSON.get "classification" v with
  | Some (JString s) => String.eqb s "AI_GENERATED" || String.eqb s "HUMAN"
  | _ => false
  end.

(** [confidence] lies in the closed unit interval. *)
Definition confidenceOk (v : Json) : bool :=
  match JSON.get "confidence" v with
  | Some (JNumber q) => Qle_bool 0 q && Qle_bool q 1
  | _ => false
  end.

Definition wellFormedResult (v : Json) : bool :=
  classificationOk v && confidenceOk v.

(* ================================================================== *)
(** ** Scenarios *)

Module Scenario.

(** A remote that answers every call the same way. *)
Definition always (r : Exn Response) : nat -> GenerateContentParams -> Exn Response :=
  fun _ _ => r.

(** A remote that answers its calls from a script, then [rest]. *)
Definition script (rs : list (Exn Response)) (rest : Exn Response)
  : nat -> GenerateContentParams -> Exn Response :=
  fun n _ => nth n rs rest.

Definition body (s : string) : Exn Response := inl {| text := Some s |}.
Definition rejects (msg : string) : Exn Response := inr (Error msg).

(** An engine that describes every syntax error the same way. *)
Definition parse : string -> Exn Json :=
  JSON.parseWith (fun _ => "Unexpected token").

Definition member (key value : string) : string :=
  Str.dq ++ key ++ Str.dq ++ ":" ++ value.
Definition quoted (s : string) : string := Str.dq ++ s ++ Str.dq.

(** A body with the three fields. *)
Definition resultBody (classification confidence explanation : string) : string :=
  "{" ++ member "classification" (quoted classification) ++ ","
      ++ member "confidence" confidence ++ ","
      ++ member "explanation" (quoted explanation) ++ "}".

Definition overconfidentBody : string :=
  resultBody "AI_GENERATED" "1.7" "flat pitch, no breath artifacts".
Definition overconfident : Json :=
  JObject [ ("classification", JString "AI_GENERATED");
            ("confidence", JNumber (17 # 10));
            ("explanation", JString "flat pitch, no breath artifacts") ].

Definition robotBody : string :=
  resultBody "ROBOT" "0.5" "unknown".
Definition robot : Json :=
  JObject [ ("classification", JString "ROBOT");
            ("confidence", JNumber (5 # 10));
            ("explanation", JString "unknown") ].

Definition goodBody : string :=
  resultBody "AI_GENERATED" "0.92" "flat pitch, no breath artifacts".
Definition good : Json :=
  JObject [ ("classification", JString "AI_GENERATED");
            ("confidence", JNumber (92 # 100));
            ("explanation", JString "flat pitch, no breath artifacts") ].

Definition sample : App.State :=
  {| App.audioData := Some {| App.base64 := "UklGRg=="; App.mimeType := "audio/wav" |};
     App.language := "English";
     App.isProcessing := false;
     App.result := None;
     App.error := None |}.

End Scenario.

(* ================================================================== *)
(** ** Samples for the uploader *)

Module Studio.

Definition wav : Uploader.File :=
  {| Uploader.name := "voice.wav";
     Uploader.data := {| Uploader.type := "audio/wav";
                         Uploader.content := [x52; x49; x46; x46]%byte |} |}.

Definition pdf : Uploader.File :=
  {| Uploader.name := "notes.pdf";
     Uploader.data := {| Uploader.type := "application/pdf";
                         Uploader.content := [x25; x50; x44; x46]%byte |} |}.

(** A file of exactly 10 * 1024 * 1024 bytes. *)
Definition tenMiB : Uploader.File :=
  {| Uploader.name := "long.wav";
     Uploader.data := {| Uploader.type := "audio/wav";
                         Uploader.content := repeat x00%byte (Z.to_nat 10485760) |} |}.

(** A reader that answers every blob with the same payload. *)
Definition reader (b : Uploader.Blob) : Exn string :=
  inl ("data:" ++ Uploader.type b ++ ";base64," ++ "UklGRg==").

(** A reader whose data URL stops after the scheme. *)
Definition bareReader (b : Uploader.Blob) : Exn string := inl "data:".

Definition objectURL (b : Uploader.Blob) : string := "blob:voiceguard/1".

Definition chunk (bytes : list Byte.byte) : Uploader.Blob :=
  {| Uploader.type := "audio/webm;codecs=opus"; Uploader.content := bytes |}.

Definition take : list Uploader.RecorderEvent :=
  [ Uploader.Delivered (chunk [x1a; x45]%byte);
    Uploader.Second;
    Uploader.Delivered (chunk []);
    Uploader.Second;
    Uploader.Delivered (chunk [xdf]%byte) ].

(** A thrown value without a [message]. *)
Definition silent : JsError := mkError "Object" None.

End Studio.

(* ================================================================== *)
(** * Properties *)

(** ** Searching in strings *)

Lemma startsWith_app (x y : string) : Str.startsWith x (x ++ y) = true.
Proof.
  induction x as [|c x IH]; simpl; [reflexivity|].
  now rewrite Ascii.eqb_refl, IH.
Qed.

Lemma includes_here (x y : string) : Str.includes (x ++ y) x = true.
Proof.
  destruct x; simpl; [now destruct y|].
  now rewrite Ascii.eqb_refl, startsWith_app.
Qed.

Lemma includes_later (x y needle : string) :
  Str.includes y needle = true -> Str.includes (x ++ y) needle = true.
Proof.
  intro H. induction x as [|c x IH]; simpl; [exact H|].
  rewrite IH. apply orb_true_r.
Qed.

Lemma includes_self (x : string) : Str.includes x x = true.
Proof.
  destruct x; simpl; [reflexivity|].
  rewrite Ascii.eqb_refl.
  pose proof (startsWith_app x "") as H.
  replace (x ++ "") with x in H; [now rewrite H|].
  clear H. induction x as [|c x IH]; simpl; congruence.
Qed.

Lemma includes_join (sep x : string) (xs : list string) :
  In x xs -> Str.includes (Str.join sep xs) x = true.
Proof.
  induction xs as [|y [|z rest] IH]; intro Hin.
  - destruct Hin.
  - destruct Hin as [->|[]]. apply includes_self.
  - destruct Hin as [->|Hin].
    + apply includes_here.
    + change (Str.join sep (y :: z :: rest))
        with (y ++ sep ++ Str.join sep (z :: rest)).
      apply includes_later, includes_later, IH, Hin.
Qed.

(** ** One attempt *)

Section Ladder.

Variable JSON_parse : string -> Exn Json.
Variable generateContent : nat -> GenerateContentParams -> Exn Response.
Variables base64Data mimeType language : string.

#[local] Abbreviation attempt :=
  (attemptAnalysis JSON_parse generateContent base64Data mimeType language).
#[local] Abbreviation attemptBody :=
  (tryBlock JSON_parse generateContent base64Data mimeType language).
#[local] Abbreviation params := (paramsFor base64Data mimeType language).
#[local] Abbreviation run :=
  (analyzeAudio JSON_parse generateContent base64Data mimeType language).

(** The function body, read as one equation. *)
Lemma attemptAnalysis_body (m : string) (budget : Z) (retryCount n : nat) :
  attempt m budget retryCount n =
  match attemptBody m budget n with
  | inl result => (Returned result, [EvCall (params m budget)])
  | inr error =>
      if isQuota (messageOf error) then
        if lt_dec retryCount 2 then
          emit [ EvCall (params m budget);
                 EvWarn (quotaWarning m retryCount);
                 EvWait (2000 * (Z.of_nat retryCount + 1)) ]
               (attempt m budget (retryCount + 1) (n + 1))
        else if string_dec m PRO then
          emit [ EvCall (params m budget);
                 EvWarn (quotaWarning m retryCount);
                 EvLog "Switching to Gemini 3 Flash for fallback..." ]
               (attempt FLASH 1024 0 (n + 1))
        else (Thrown error, [ EvCall (params m budget);
                              EvWarn (quotaWarning m retryCount) ])
      else (Thrown error, [EvCall (params m budget)])
  end.
Proof.
  rewrite (attemptAnalysis_equation_1 JSON_parse generateContent
             base64Data mimeType language m budget retryCount n).
  destruct (attemptBody m budget n) as [result|error].
  - now rewrite attemptAnalysis_clause_1_equation_1.
  - rewrite attemptAnalysis_clause_1_equation_2.
    destruct (isQuota (messageOf error)).
    + rewrite attemptAnalysis_clause_1_clause_2_equation_1.
      destruct (lt_dec retryCount 2).
      * now rewrite attemptAnalysis_clause_1_clause_2_clause_2_equation_1.
      * rewrite attemptAnalysis_clause_1_clause_2_clause_2_equation_2.
        destruct (string_dec m PRO).
        -- now rewrite attemptAnalysis_clause_1_clause_2_clause_2_clause_2_equation_1.
        -- now rewrite attemptAnalysis_clause_1_clause_2_clause_2_clause_2_equation_2.
    + now rewrite attemptAnalysis_clause_1_clause_2_equation_2.
Qed.

(** What the [try] block does with each kind of answer. *)
Lemma tryBlock_rejected m budget n e :
  generateContent n (params m budget) = inr e ->
  attemptBody m budget n = inr e.
Proof. unfold tryBlock. now intros ->. Qed.

Lemma tryBlock_empty m budget n resp :
  generateContent n (params m budget) = inl resp ->
  falsy (text resp) = true ->
  attemptBody m budget n = inr (Error "Empty response from Gemini").
Proof. unfold tryBlock. intros -> H. simpl. now rewrite H. Qed.

Lemma tryBlock_parsed m budget n resp :
  generateContent n (params m budget) = inl resp ->
  falsy (text resp) = false ->
  attemptBody m budget n = JSON_parse (textOf (text resp)).
Proof. unfold tryBlock. intros -> H. simpl. now rewrite H. Qed.

(** The transitions of the ladder, one lemma each. *)
Lemma step_success m budget retryCount n v :
  attemptBody m budget n = inl v ->
  attempt m budget retryCount n = (Returned v, [EvCall (params m budget)]).
Proof. intro H. now rewrite attemptAnalysis_body, H. Qed.

Lemma step_fatal m budget retryCount n e :
  attemptBody m budget n = inr e ->
  isQuota (messageOf e) = false ->
  attempt m budget retryCount n = (Thrown e, [EvCall (params m budget)]).
Proof. intros H Hq. now rewrite attemptAnalysis_body, H, Hq. Qed.

Lemma step_retry m budget retryCount n e :
  attemptBody m budget n = inr e ->
  isQuota (messageOf e) = true ->
  (retryCount < 2)%nat ->
  attempt m budget retryCount n =
  emit [ EvCall (params m budget);
         EvWarn (quotaWarning m retryCount);
         EvWait (2000 * (Z.of_nat retryCount + 1)) ]
       (attempt m budget (S retryCount) (S n)).
Proof.
  intros H Hq Hlt. rewrite attemptAnalysis_body, H, Hq.
  destruct (lt_dec retryCount 2); [|contradiction].
  now rewrite !Nat.add_1_r.
Qed.

Lemma step_fallback budget retryCount n e :
  attemptBody PRO budget n = inr e ->
  isQuota (messageOf e) = true ->
  (2 <= retryCount)%nat ->
  attempt PRO budget retryCount n =
  emit [ EvCall (params PRO budget);
         EvWarn (quotaWarning PRO retryCount);
         EvLog "Switching to Gemini 3 Flash for fallback..." ]
       (attempt FLASH 1024 0 (S n)).
Proof.
  intros H Hq Hge. rewrite attemptAnalysis_body, H, Hq.
  destruct (lt_dec retryCount 2); [lia|].
  destruct (string_dec PRO PRO); [|congruence].
  now rewrite !Nat.add_1_r.
Qed.

Lemma step_exhausted m budget retryCount n e :
  attemptBody m budget n = inr e ->
  isQuota (messageOf e) = true ->
  (2 <= retryCount)%nat ->
  m <> PRO ->
  attempt m budget retryCount n =
  (Thrown e, [ EvCall (params m budget); EvWarn (quotaWarning m retryCount) ]).
Proof.
  intros H Hq Hge Hm. rewrite attemptAnalysis_body, H, Hq.
  destruct (lt_dec retryCount 2); [lia|].
  destruct (string_dec m PRO); [contradiction|reflexivity].
Qed.

(** ** Invariants of every run *)

Lemma calls_emit evs r :
  calls (snd (emit evs r)) = (calls evs ++ calls (snd r))%list.
Proof.
  unfold emit; simpl.
  induction evs as [|[] evs IH]; simpl; congruence.
Qed.

Lemma waits_emit evs r :
  waits (snd (emit evs r)) = (waits evs ++ waits (snd r))%list.
Proof.
  unfold emit; simpl.
  induction evs as [|[] evs IH]; simpl; congruence.
Qed.

Lemma switches_emit evs r :
  switches (snd (emit evs r)) = (switches evs + switches (snd r))%nat.
Proof.
  unfold emit; simpl.
  induction evs as [|[] evs IH]; simpl; congruence.
Qed.

(** Every trace opens with the remote call of its own attempt. *)
Lemma trace_opens_with_call m budget retryCount n :
  exists rest,
    snd (attempt m budget retryCount n) = EvCall (params m budget) :: rest.
Proof.
  rewrite attemptAnalysis_body.
  destruct (attemptBody m budget n) as [v|e]; [now eexists|].
  destruct (isQuota (messageOf e)); [|now eexists].
  destruct (lt_dec retryCount 2); [now eexists|].
  destruct (string_dec m PRO); now eexists.
Qed.

(** A backoff wait lasts 2000 or 4000 ms. *)
Lemma waits_in_range m budget retryCount n :
  Forall (fun ms => ms = 2000 \/ ms = 4000)%Z
         (waits (snd (attempt m budget retryCount n))).
Proof.
  funelim (attempt m budget retryCount n);
    rewrite ?waits_emit; cbn [waits app snd]; auto.
  constructor; [lia|assumption].
Qed.

(** There is one wait fewer than there are calls, or fewer still. *)
Lemma waits_fewer_than_calls m budget retryCount n :
  (length (waits (snd (attempt m budget retryCount n)))
   < length (calls (snd (attempt m budget retryCount n))))%nat.
Proof.
  funelim (attempt m budget retryCount n);
    rewrite ?waits_emit, ?calls_emit; cbn [waits calls app snd length]; lia.
Qed.

(** At most 4000 ms are waited between one call and the next. *)
Lemma gaps_in_range m budget retryCount n :
  Forall (fun g => 0 <= g <= 4000)%Z
         (gaps 0 (snd (attempt m budget retryCount n))).
Proof.
  funelim (attempt m budget retryCount n);
    unfold emit; cbn [gaps app snd].
  - repeat constructor; lia.
  - repeat constructor; lia.
  - destruct (trace_opens_with_call model0 budget (retryCount + 1) (n + 1))
      as [rest Hrest].
    rewrite Hrest in *. cbn [gaps] in *.
    match goal with IH : Forall _ (_ :: _) |- _ => inversion IH; subst end.
    repeat constructor; try lia; assumption.
  - constructor; [lia|assumption].
  - repeat constructor; lia.
Qed.

(** The calls of a run: some on the tier it starts on, then some on the
    fallback tier, and never back. *)
Lemma calls_shape m budget retryCount n :
  exists a c,
    calls (snd (attempt m budget retryCount n)) =
      (repeat (params m budget) a ++ repeat (params FLASH 1024) c)%list
    /\ (1 <= a <= Nat.max 1 (3 - retryCount))%nat
    /\ (c <= 3)%nat
    /\ ((0 < c)%nat -> m = PRO /\ (3 <= a + retryCount)%nat)
    /\ switches (snd (attempt m budget retryCount n)) = Nat.min 1 c.
Proof.
  funelim (attempt m budget retryCount n);
    rewrite ?calls_emit, ?switches_emit; cbn [calls switches app snd].
  - exists 1%nat, 0%nat. cbn [repeat app Nat.min]. repeat split; lia.
  - exists 1%nat, 0%nat. cbn [repeat app Nat.min]. repeat split; lia.
  - destruct H as (a & c & Hc & Ha & Hcc & Hpro & Hsw).
    exists (S a), c. rewrite Hc, Hsw. cbn [repeat app Nat.add].
    repeat split; try lia.
    now apply Hpro.
  - destruct H as (a & c & Hc & Ha & Hcc & Hpro & Hsw).
    assert (c = 0)%nat as ->.
    { destruct c; [reflexivity|].
      destruct Hpro as [Habs _]; [lia|discriminate Habs]. }
    rewrite app_nil_r in Hc.
    exists 1%nat, a. rewrite Hc, Hsw. cbn [repeat app Nat.add Nat.min] in *.
    repeat split; try lia; [assumption|].
    destruct a; [lia|reflexivity].
  - exists 1%nat, 0%nat. cbn [repeat app Nat.min]. repeat split; lia.
Qed.

(** How the promise settles is how the [try] block of the last attempt
    completed. *)
Lemma last_attempt_decides m budget retryCount n :
  exists earlier m' budget',
    calls (snd (attempt m budget retryCount n)) =
      (earlier ++ [params m' budget'])%list
    /\ attemptBody m' budget' (n + length earlier) =
       settle (fst (attempt m budget retryCount n)).
Proof.
  funelim (attempt m budget retryCount n);
    rewrite ?calls_emit; cbn [calls app snd fst emit settle].
  - exists [], model0, budget. now rewrite Nat.add_0_r.
  - exists [], model0, budget. now rewrite Nat.add_0_r.
  - destruct H as (earlier & m' & b' & Hc & Hlast).
    exists (params model0 budget :: earlier), m', b'. rewrite Hc.
    split; [reflexivity|].
    cbn [length]. now rewrite Nat.add_succ_r, <- Nat.add_1_r, <- Nat.add_assoc,
                    (Nat.add_comm (length earlier)), Nat.add_assoc.
  - destruct H as (earlier & m' & b' & Hc & Hlast).
    exists (params model0 budget :: earlier), m', b'. rewrite Hc.
    split; [reflexivity|].
    cbn [length]. now rewrite Nat.add_succ_r, <- Nat.add_1_r, <- Nat.add_assoc,
                    (Nat.add_comm (length earlier)), Nat.add_assoc.
  - exists [], model0, budget. now rewrite Nat.add_0_r.
Qed.

(** ** The ladder on given answers *)

(** C1. When every remote call is rejected with a rate-limit or quota
    message, [analyzeAudio] calls the primary model three times, waiting
    2000 ms and then 4000 ms, calls the fallback model three times with
    the same two waits, and rejects with the error of the sixth call,
    itself a quota error.  Six calls, four waits, nothing after. *)
Theorem throttled_ladder_makes_six_attempts :
  (forall k p, exists e,
      generateContent k p = inr e /\ isQuota (messageOf e) = true) ->
  exists e,
    generateContent 5 (params FLASH 1024) = inr e
    /\ isQuota (messageOf e) = true
    /\ run =
       (Thrown e,
        [ EvCall (params PRO 2048); EvWarn (quotaWarning PRO 0); EvWait 2000;
          EvCall (params PRO 2048); EvWarn (quotaWarning PRO 1); EvWait 4000;
          EvCall (params PRO 2048); EvWarn (quotaWarning PRO 2);
          EvLog "Switching to Gemini 3 Flash for fallback...";
          EvCall (params FLASH 1024); EvWarn (quotaWarning FLASH 0); EvWait 2000;
          EvCall (params FLASH 1024); EvWarn (quotaWarning FLASH 1); EvWait 4000;
          EvCall (params FLASH 1024); EvWarn (quotaWarning FLASH 2) ])
    /\ calls (snd run) =
       (repeat (params PRO 2048) 3 ++ repeat (params FLASH 1024) 3)%list
    /\ waits (snd run) = [2000; 4000; 2000; 4000]%Z
    /\ length (calls (snd run)) = 6%nat.
Proof.
  intro Hall.
  destruct (Hall 0%nat (params PRO 2048)) as (e0 & G0 & Q0).
  destruct (Hall 1%nat (params PRO 2048)) as (e1 & G1 & Q1).
  destruct (Hall 2%nat (params PRO 2048)) as (e2 & G2 & Q2).
  destruct (Hall 3%nat (params FLASH 1024)) as (e3 & G3 & Q3).
  destruct (Hall 4%nat (params FLASH 1024)) as (e4 & G4 & Q4).
  destruct (Hall 5%nat (params FLASH 1024)) as (e5 & G5 & Q5).
  apply tryBlock_rejected in G0, G1, G2, G3, G4.
  pose proof (tryBlock_rejected _ _ _ _ G5) as B5.
  exists e5. split; [exact G5|]. split; [exact Q5|].
  assert (Hrun : run = (Thrown e5,
        [ EvCall (params PRO 2048); EvWarn (quotaWarning PRO 0); EvWait 2000;
          EvCall (params PRO 2048); EvWarn (quotaWarning PRO 1); EvWait 4000;
          EvCall (params PRO 2048); EvWarn (quotaWarning PRO 2);
          EvLog "Switching to Gemini 3 Flash for fallback...";
          EvCall (params FLASH 1024); EvWarn (quotaWarning FLASH 0); EvWait 2000;
          EvCall (params FLASH 1024); EvWarn (quotaWarning FLASH 1); EvWait 4000;
          EvCall (params FLASH 1024); EvWarn (quotaWarning FLASH 2) ])).
  { unfold analyzeAudio.
    rewrite (step_retry PRO 2048 0 0 e0 G0 Q0) by lia.
    rewrite (step_retry PRO 2048 1 1 e1 G1 Q1) by lia.
    rewrite (step_fallback 2048 2 2 e2 G2 Q2) by lia.
    rewrite (step_retry FLASH 1024 0 3 e3 G3 Q3) by lia.
    rewrite (step_retry FLASH 1024 1 4 e4 G4 Q4) by lia.
    rewrite (step_exhausted FLASH 1024 2 5 e5 B5 Q5) by (lia || discriminate).
    reflexivity. }
  rewrite Hrun. repeat split; reflexivity.
Qed.

(** C4. When the first remote call fails with an error whose message
    carries no rate-limit or quota signal, [analyzeAudio] rejects with
    that very error after this single call: no wait, no retry, no
    fallback. *)
Theorem fatal_first_failure_is_final (e : JsError) :
  generateContent 0 (params PRO 2048) = inr e ->
  isQuota (messageOf e) = false ->
  run = (Thrown e, [EvCall (params PRO 2048)])
  /\ waits (snd run) = []
  /\ length (calls (snd run)) = 1%nat.
Proof.
  intros Hfail Hq. apply tryBlock_rejected in Hfail. unfold analyzeAudio.
  rewrite (step_fatal PRO 2048 0 0 e Hfail Hq). repeat split; reflexivity.
Qed.

(** C5. When the first call is throttled and the second call, still on
    the primary model, answers with a body that parses, [analyzeAudio]
    returns the parsed value after exactly two calls and one wait of
    2000 ms; the fallback model is never called. *)
Theorem second_attempt_success (e : JsError) (resp : Response) (v : Json) :
  generateContent 0 (params PRO 2048) = inr e ->
  isQuota (messageOf e) = true ->
  generateContent 1 (params PRO 2048) = inl resp ->
  falsy (text resp) = false ->
  JSON_parse (textOf (text resp)) = inl v ->
  run = (Returned v,
         [ EvCall (params PRO 2048); EvWarn (quotaWarning PRO 0); EvWait 2000;
           EvCall (params PRO 2048) ])
  /\ calls (snd run) = [params PRO 2048; params PRO 2048]
  /\ waits (snd run) = [2000%Z]
  /\ filter (onModel FLASH) (calls (snd run)) = [].
Proof.
  intros H0 Hq H1 Htext Hparse.
  apply tryBlock_rejected in H0.
  pose proof (tryBlock_parsed _ _ _ _ H1 Htext) as B1.
  rewrite Hparse in B1.
  assert (Hrun : run = (Returned v,
         [ EvCall (params PRO 2048); EvWarn (quotaWarning PRO 0); EvWait 2000;
           EvCall (params PRO 2048) ])).
  { unfold analyzeAudio.
    rewrite (step_retry PRO 2048 0 0 e H0 Hq) by lia.
    rewrite (step_success PRO 2048 1 1 v B1). reflexivity. }
  rewrite Hrun. repeat split; reflexivity.
Qed.

(** ** Every run *)

Lemma params_inj m budget m' budget' :
  params m budget = params m' budget' -> m = m' /\ budget = budget'.
Proof.
  intro H. split.
  - exact (f_equal model H).
  - exact (f_equal (fun p => thinkingBudget (config p)) H).
Qed.

Lemma tryBlock_returned m budget n v :
  attemptBody m budget n = inl v ->
  exists resp,
    generateContent n (params m budget) = inl resp
    /\ falsy (text resp) = false
    /\ JSON_parse (textOf (text resp)) = inl v.
Proof.
  unfold tryBlock.
  destruct (generateContent n (params m budget)) as [resp|e]; simpl;
    [|discriminate].
  destruct (falsy (text resp)) eqn:Hf; [discriminate|].
  intro H. now exists resp.
Qed.

Lemma length_filter_repeat {A} (f : A -> bool) (x : A) (k : nat) :
  length (filter f (repeat x k)) = if f x then k else 0%nat.
Proof.
  induction k as [|k IH]; simpl; [now destruct (f x)|].
  destruct (f x); simpl; congruence.
Qed.

Lemma Forall_repeat {A} (P : A -> Prop) (x : A) (k : nat) :
  P x -> Forall P (repeat x k).
Proof. intro H. induction k; simpl; auto. Qed.

(** C2, as the code has it.  [analyzeAudio] fulfils with [v] exactly
    when the body answered to its last call is non-empty and
    [JSON.parse] turns it into [v]: the parsed value is handed on as it
    is, whatever its classification and confidence. *)
Theorem returned_value_is_the_parsed_body (v : Json) :
  fst run = Returned v <->
  exists earlier m budget resp,
    calls (snd run) = (earlier ++ [params m budget])%list
    /\ generateContent (length earlier) (params m budget) = inl resp
    /\ falsy (text resp) = false
    /\ JSON_parse (textOf (text resp)) = inl v.
Proof.
  destruct (last_attempt_decides PRO 2048 0 0)
    as (earlier & m & budget & Hcalls & Hlast).
  fold run in Hcalls, Hlast. cbn [Nat.add] in Hlast.
  split.
  - intro Hret. rewrite Hret in Hlast. cbn [settle] in Hlast.
    destruct (tryBlock_returned _ _ _ _ Hlast) as (resp & Hg & Hf & Hp).
    now exists earlier, m, budget, resp.
  - intros (earlier' & m' & budget' & resp & Hcalls' & Hg & Hf & Hp).
    rewrite Hcalls in Hcalls'.
    apply app_inj_tail in Hcalls' as [<- Hparams].
    apply params_inj in Hparams as [<- <-].
    rewrite (tryBlock_parsed _ _ _ _ Hg Hf), Hp in Hlast.
    destruct (fst run); cbn [settle] in Hlast; congruence.
Qed.

(** C6, as the code has it.  When a call answers with a body and the
    engine's message for a body it cannot parse carries no rate-limit or
    quota signal, the attempt is the last one: an empty body rejects
    with "Empty response from Gemini", an unparsable body rejects with
    the parse error, and a body that parses is returned as parsed. *)
Theorem body_ends_the_ladder m budget retryCount n (resp : Response) :
  generateContent n (params m budget) = inl resp ->
  (falsy (text resp) = false ->
   forall e, JSON_parse (textOf (text resp)) = inr e ->
             isQuota (messageOf e) = false) ->
  attempt m budget retryCount n =
  (if falsy (text resp) then Thrown (Error "Empty response from Gemini")
   else match JSON_parse (textOf (text resp)) with
        | inl v => Returned v
        | inr e => Thrown e
        end,
   [EvCall (params m budget)]).
Proof.
  intros Hg Hengine.
  destruct (falsy (text resp)) eqn:Hf.
  - apply step_fatal; [now apply tryBlock_empty with resp|reflexivity].
  - pose proof (tryBlock_parsed _ _ _ _ Hg Hf) as Hb.
    destruct (JSON_parse (textOf (text resp))) as [v|e] eqn:Hp.
    + now apply step_success.
    + apply step_fatal; [assumption|]. now apply Hengine.
Qed.

(** The same [catch] block sees the errors of [JSON.parse]: when the
    engine's message for an unparsable body does carry a signal (a
    position or a quoted fragment reading 429, say), the attempt is
    retried like a throttled one. *)
Lemma parse_error_with_signal_is_retried m budget retryCount n resp e :
  generateContent n (params m budget) = inl resp ->
  falsy (text resp) = false ->
  JSON_parse (textOf (text resp)) = inr e ->
  isQuota (messageOf e) = true ->
  (retryCount < 2)%nat ->
  attempt m budget retryCount n =
  emit [ EvCall (params m budget);
         EvWarn (quotaWarning m retryCount);
         EvWait (2000 * (Z.of_nat retryCount + 1)) ]
       (attempt m budget (S retryCount) (S n)).
Proof.
  intros Hg Hf Hp Hq Hlt.
  apply step_retry with e; try assumption.
  now rewrite (tryBlock_parsed _ _ _ _ Hg Hf).
Qed.

(** C3. Whatever the remote answers, [analyzeAudio] settles, fulfilled
    or rejected, after at least one and at most six remote calls, at
    most three of them on each model; a backoff wait lasts 2000 or
    4000 ms, waits only stand between calls, and no more than 4000 ms
    are waited between one call and the next. *)
Theorem run_settles_within_six_calls :
  ((exists v, fst run = Returned v) \/ (exists e, fst run = Thrown e))
  /\ (1 <= length (calls (snd run)) <= 6)%nat
  /\ (length (filter (onModel PRO) (calls (snd run))) <= 3)%nat
  /\ (length (filter (onModel FLASH) (calls (snd run))) <= 3)%nat
  /\ Forall (fun p => model p = PRO \/ model p = FLASH) (calls (snd run))
  /\ Forall (fun ms => ms = 2000 \/ ms = 4000)%Z (waits (snd run))
  /\ (length (waits (snd run)) < length (calls (snd run)))%nat
  /\ Forall (fun g => 0 <= g <= 4000)%Z (gaps 0 (snd run)).
Proof.
  destruct (calls_shape PRO 2048 0 0) as (a & c & Hc & Ha & Hcc & _ & _).
  fold run in Hc. cbn in Ha.
  split; [destruct (fst run); eauto|].
  rewrite Hc, !filter_app, !length_app, !length_filter_repeat, !repeat_length.
  cbn [onModel model paramsFor].
  repeat split; try (cbn; lia).
  - apply Forall_app; split; apply Forall_repeat; cbn; auto.
  - apply waits_in_range.
  - rewrite <- (repeat_length (params PRO 2048) a),
            <- (repeat_length (params FLASH 1024) c), <- length_app, <- Hc.
    apply waits_fewer_than_calls.
  - apply gaps_in_range.
Qed.

(** C9. Every request [analyzeAudio] sends is the primary model with a
    reasoning budget of 2048 or the fallback model with a budget of
    1024, and its output cap is that budget plus 4096. *)
Theorem output_cap_is_budget_plus_headroom :
  Forall (fun p =>
            maxOutputTokens (config p) = (thinkingBudget (config p) + 4096)%Z
            /\ ((model p = PRO /\ thinkingBudget (config p) = 2048%Z
                              /\ maxOutputTokens (config p) = 6144%Z)
                \/ (model p = FLASH /\ thinkingBudget (config p) = 1024%Z
                                  /\ maxOutputTokens (config p) = 5120%Z)))
         (calls (snd run)).
Proof.
  destruct (calls_shape PRO 2048 0 0) as (a & c & Hc & _).
  fold run in Hc. rewrite Hc.
  apply Forall_app; split; apply Forall_repeat; cbn; auto 6.
Qed.

(** C10. The calls of a run are one to three calls on the primary model
    (budget 2048) followed by at most three on the fallback model
    (budget 1024), the latter only after three on the former; the
    switch is announced at most once; and when the third fallback call
    fails, for whatever reason, its error is what [analyzeAudio]
    rejects with. *)
Theorem fallback_once_and_one_way :
  exists a c,
    calls (snd run) =
      (repeat (params PRO 2048) a ++ repeat (params FLASH 1024) c)%list
    /\ (1 <= a <= 3)%nat
    /\ (c <= 3)%nat
    /\ ((0 < c)%nat -> a = 3%nat)
    /\ switches (snd run) = Nat.min 1 c
    /\ (c = 3%nat ->
        forall e, attemptBody FLASH 1024 5 = inr e -> fst run = Thrown e).
Proof.
  destruct (calls_shape PRO 2048 0 0) as (a & c & Hc & Ha & Hcc & Hpro & Hsw).
  fold run in Hc, Hsw. cbn in Ha.
  exists a, c. repeat split; try lia; try assumption.
  intros -> e Hlast6.
  assert (a = 3)%nat as -> by (destruct Hpro; lia).
  destruct (last_attempt_decides PRO 2048 0 0)
    as (earlier & m & budget & Hcalls & Hlast).
  fold run in Hcalls, Hlast. cbn [Nat.add] in Hlast.
  rewrite Hc in Hcalls.
  change (repeat (params PRO 2048) 3 ++ repeat (params FLASH 1024) 3)%list
    with ([params PRO 2048; params PRO 2048; params PRO 2048;
           params FLASH 1024; params FLASH 1024] ++ [params FLASH 1024])%list
    in Hcalls.
  apply app_inj_tail in Hcalls as [<- Hparams].
  apply params_inj in Hparams as [<- <-].
  cbn [length] in Hlast. rewrite Hlast6 in Hlast.
  destruct (fst run); cbn [settle] in Hlast; congruence.
Qed.

End Ladder.

(* ================================================================== *)
(** ** Prompt and schema *)

(** C7, as the code has it.  [prompt] is a function of the language
    alone, defined for every string.  Its text carries the five
    evaluation criteria and the decision heuristic in the wording of the
    source, not of the specification: the five numbered lines and the
    two decision-logic lines written out below, and the line naming the
    language.  The response schema has exactly the properties
    [classification], [confidence] and [explanation], requires all
    three, and restricts [classification] to AI_GENERATED and HUMAN.
    Every request carries this prompt and this schema. *)
Theorem prompt_and_schema (language : string) :
  Forall (fun line => Str.includes (prompt language) line = true)
    [ "      1. **Breath & Pauses**: Real humans breathe. AI often forgets to breathe or places breaths at unnatural intervals.";
      "      2. **Prosody & Intonation**: Human speech has irregular pitch curves. AI often produces "
        ++ Str.dq ++ "flat" ++ Str.dq ++ " or " ++ Str.dq ++ "perfectly cyclic" ++ Str.dq ++ " pitch patterns.";
      "      3. **Spectral Artifacts**: Listen for metallic ringing, phasing, or high-frequency buzz typical of neural vocoders.";
      "      4. **Micro-details**: Lip smacks, tongue clicks, and throat clearing are strong indicators of HUMAN speech.";
      "      5. **Background**: Absolute digital silence between words is a strong indicator of AI_GENERATED.";
      "      - If it sounds " ++ Str.dq ++ "too perfect" ++ Str.dq ++ ", it is likely AI.";
      "      - If it has natural imperfections (breaths, clicks, variable pace), it is likely HUMAN.";
      "      LANGUAGE: " ++ language ]
  /\ map fst (properties responseSchema_) =
       ["classification"; "confidence"; "explanation"]
  /\ required responseSchema_ = ["classification"; "confidence"; "explanation"]
  /\ map (fun kv => (fst kv, ptype (snd kv), penum (snd kv)))
         (properties responseSchema_) =
       [ ("classification", STRING, Some ["AI_GENERATED"; "HUMAN"]);
         ("confidence", NUMBER, None);
         ("explanation", STRING, None) ]
  /\ (forall base64Data mimeType m budget,
        contents (paramsFor base64Data mimeType language m budget) =
          [InlineData mimeType base64Data; TextPart (prompt language)]
        /\ responseSchema (config (paramsFor base64Data mimeType language m budget)) =
             responseSchema_).
Proof.
  assert (Hline : forall line, In line (promptLines language) ->
                    Str.includes (prompt language) line = true).
  { intros line Hin. now apply includes_join. }
  repeat split; try reflexivity.
  repeat constructor; apply Hline; apply in_concat.
  - exists criteria. split; [cbn; auto|]. left. reflexivity.
  - exists criteria. split; [cbn; auto|]. right. left. reflexivity.
  - exists criteria. split; [cbn; auto|]. do 2 right. left. reflexivity.
  - exists criteria. split; [cbn; auto|]. do 3 right. left. reflexivity.
  - exists criteria. split; [cbn; auto|]. do 4 right. left. reflexivity.
  - exists decisionLogic. split; [cbn; auto|]. left. reflexivity.
  - exists decisionLogic. split; [cbn; auto|]. right. left. reflexivity.
  - eexists. split; [left; reflexivity|]. do 4 right. left. reflexivity.
Qed.

(** C7 fails on the code as the specification words it: for the
    language English none of the five items of the specification's list
    occurs in the prompt, neither as the whole sentence nor as its
    gloss, and the heuristic's "leans AI_GENERATED" does not occur. *)
Lemma spec_wording_is_not_in_the_prompt :
  length specCriteria = 5%nat
  /\ Forall (fun item =>
               Str.includes (prompt "English") (specSentence item) = false
               /\ Str.includes (prompt "English") (snd item) = false)
            specCriteria
  /\ Str.includes (prompt "English") "leans AI_GENERATED" = false.
Proof.
  split; [reflexivity|]. split.
  - repeat constructor; vm_compute; reflexivity.
  - vm_compute. reflexivity.
Qed.

(* ================================================================== *)
(** ** Concrete runs *)

(** C1 on a remote that always answers 429. *)
Lemma throttled_ladder_witness :
  (forall k p, exists e,
      Scenario.always (Scenario.rejects "429 Too Many Requests") k p = inr e
      /\ isQuota (messageOf e) = true)
  /\ fst (analyzeAudio Scenario.parse
            (Scenario.always (Scenario.rejects "429 Too Many Requests"))
            "UklGRg==" "audio/wav" "English")
     = Thrown (Error "429 Too Many Requests")
  /\ length (calls (snd (analyzeAudio Scenario.parse
            (Scenario.always (Scenario.rejects "429 Too Many Requests"))
            "UklGRg==" "audio/wav" "English"))) = 6%nat
  /\ waits (snd (analyzeAudio Scenario.parse
            (Scenario.always (Scenario.rejects "429 Too Many Requests"))
            "UklGRg==" "audio/wav" "English")) = [2000; 4000; 2000; 4000]%Z.
Proof.
  assert (Hall : forall k p, exists e,
      Scenario.always (Scenario.rejects "429 Too Many Requests") k p = inr e
      /\ isQuota (messageOf e) = true).
  { intros k p. exists (Error "429 Too Many Requests"). split; reflexivity. }
  split; [exact Hall|].
  destruct (throttled_ladder_makes_six_attempts Scenario.parse
              (Scenario.always (Scenario.rejects "429 Too Many Requests"))
              "UklGRg==" "audio/wav" "English" Hall)
    as (e & Hlast & _ & Hrun & _ & Hwaits & Hlen).
  injection Hlast as <-.
  rewrite Hrun. repeat split; reflexivity.
Defined.

(** C4 on a remote that refuses the API key. *)
Lemma fatal_first_failure_witness :
  Scenario.always (Scenario.rejects "API key not valid") 0%nat
    (paramsFor "UklGRg==" "audio/wav" "English" PRO 2048)
  = inr (Error "API key not valid")
  /\ isQuota (messageOf (Error "API key not valid")) = false
  /\ analyzeAudio Scenario.parse
       (Scenario.always (Scenario.rejects "API key not valid"))
       "UklGRg==" "audio/wav" "English"
     = (Thrown (Error "API key not valid"),
        [EvCall (paramsFor "UklGRg==" "audio/wav" "English" PRO 2048)]).
Proof.
  split; [reflexivity|]. split; [reflexivity|].
  apply (fatal_first_failure_is_final Scenario.parse
           (Scenario.always (Scenario.rejects "API key not valid"))
           "UklGRg==" "audio/wav" "English" (Error "API key not valid"));
    reflexivity.
Defined.

(** C5 on a remote that throttles once and then answers. *)
Lemma second_attempt_success_witness :
  isQuota (messageOf (Error "429 Too Many Requests")) = true
  /\ falsy (Some Scenario.goodBody) = false
  /\ Scenario.parse Scenario.goodBody = inl Scenario.good
  /\ analyzeAudio Scenario.parse
       (Scenario.script [ Scenario.rejects "429 Too Many Requests";
                          Scenario.body Scenario.goodBody ]
                        (Scenario.rejects "unreachable"))
       "UklGRg==" "audio/wav" "English"
     = (Returned Scenario.good,
        [ EvCall (paramsFor "UklGRg==" "audio/wav" "English" PRO 2048);
          EvWarn (quotaWarning PRO 0); EvWait 2000;
          EvCall (paramsFor "UklGRg==" "audio/wav" "English" PRO 2048) ]).
Proof.
  split; [reflexivity|]. split; [reflexivity|]. split; [reflexivity|].
  apply (second_attempt_success Scenario.parse
           (Scenario.script [ Scenario.rejects "429 Too Many Requests";
                              Scenario.body Scenario.goodBody ]
                            (Scenario.rejects "unreachable"))
           "UklGRg==" "audio/wav" "English"
           (Error "429 Too Many Requests")
           {| text := Some Scenario.goodBody |} Scenario.good);
    reflexivity.
Defined.

(** C6 on a body that is not JSON. *)
Lemma body_ends_the_ladder_witness :
  (forall e, Scenario.parse "<html>Bad Gateway</html>" = inr e ->
             isQuota (messageOf e) = false)
  /\ attemptAnalysis Scenario.parse
       (Scenario.always (Scenario.body "<html>Bad Gateway</html>"))
       "UklGRg==" "audio/wav" "English" PRO 2048 0 0
     = (Thrown (mkError "SyntaxError" (Some "Unexpected token")),
        [EvCall (paramsFor "UklGRg==" "audio/wav" "English" PRO 2048)]).
Proof.
  assert (Hengine : forall e,
             Scenario.parse "<html>Bad Gateway</html>" = inr e ->
             isQuota (messageOf e) = false).
  { intros e He. vm_compute in He. injection He as <-. reflexivity. }
  split; [exact Hengine|].
  apply (body_ends_the_ladder Scenario.parse
           (Scenario.always (Scenario.body "<html>Bad Gateway</html>"))
           "UklGRg==" "audio/wav" "English" PRO 2048 0 0
           {| text := Some "<html>Bad Gateway</html>" |});
    [reflexivity|intros _; exact Hengine].
Defined.

(** C2 fails on the code: a body with confidence 1.7 is returned as it
    was parsed, neither rejected nor clamped. *)
Lemma overconfident_result_is_returned :
  fst (analyzeAudio Scenario.parse
         (Scenario.always (Scenario.body Scenario.overconfidentBody))
         "UklGRg==" "audio/wav" "English")
  = Returned Scenario.overconfident
  /\ confidenceOk Scenario.overconfident = false
  /\ wellFormedResult Scenario.overconfident = false.
Proof. repeat split; vm_compute; reflexivity. Qed.

(** C6 fails on the code: a body that parses but does not validate is
    not rejected; the attempt returns it. *)
Lemma invalid_body_is_returned :
  analyzeAudio Scenario.parse
    (Scenario.always (Scenario.body Scenario.robotBody))
    "UklGRg==" "audio/wav" "English"
  = (Returned Scenario.robot,
     [EvCall (paramsFor "UklGRg==" "audio/wav" "English" PRO 2048)])
  /\ classificationOk Scenario.robot = false
  /\ wellFormedResult Scenario.robot = false.
Proof. repeat split; vm_compute; reflexivity. Qed.

(** C8 at its failing input: every call is rejected with the message
    "resource exhausted".  The orchestrator treats it as throttling and
    climbs the whole ladder; the handler then shows the generic text,
    not the high-traffic one. *)
Theorem resource_exhausted_shows_generic_text :
  isQuota "resource exhausted" = true
  /\ length (calls (snd (App.handleSubmit Scenario.parse
               (Scenario.always (Scenario.rejects "resource exhausted"))
               Scenario.sample))) = 6%nat
  /\ App.error (fst (App.handleSubmit Scenario.parse
               (Scenario.always (Scenario.rejects "resource exhausted"))
               Scenario.sample)) = Some App.GENERIC
  /\ App.GENERIC <> App.HIGH_TRAFFIC.
Proof. repeat split; try (vm_compute; reflexivity). discriminate. Qed.

(** With a "429" or "quota" message the handler does show the
    high-traffic text. *)
Lemma quota_message_shows_high_traffic (err : JsError) :
  Str.includes (messageOf err) "429" = true
  \/ Str.includes (messageOf err) "quota" = true ->
  App.errorText err = App.HIGH_TRAFFIC.
Proof.
  unfold App.errorText. intros [-> | ->]; [reflexivity|].
  now rewrite orb_true_r.
Qed.

(* ================================================================== *)
(** * Further properties of the orchestrator *)

Lemma startsWith_longer (needle x y : string) :
  Str.startsWith needle x = true -> Str.startsWith needle (x ++ y) = true.
Proof.
  revert x. induction needle as [|c needle IH]; intros x H; [reflexivity|].
  destruct x as [|d x]; [discriminate|]. simpl in *.
  apply andb_true_iff in H as [-> H]. now rewrite (IH _ H).
Qed.

Lemma includes_earlier (x y needle : string) :
  Str.includes x needle = true -> Str.includes (x ++ y) needle = true.
Proof.
  induction x as [|c x IH]; simpl; intro H.
  - rewrite orb_false_r in H. destruct needle; [|discriminate].
    now destruct y.
  - apply orb_true_iff in H as [H|H].
    + change (String c (x ++ y)) with (String c x ++ y).
      now rewrite (startsWith_longer _ _ _ H).
    + rewrite (IH H). apply orb_true_r.
Qed.

Lemma calls_app (tr1 tr2 : list Event) :
  calls (tr1 ++ tr2) = (calls tr1 ++ calls tr2)%list.
Proof. induction tr1 as [|[] tr1 IH]; simpl; congruence. Qed.

Lemma tierWaits_next (retryCount : nat) :
  (retryCount < 2)%nat ->
  tierWaits retryCount =
  (2000 * (Z.of_nat retryCount + 1))%Z :: tierWaits (retryCount + 1).
Proof. destruct retryCount as [|[|?]]; [reflexivity|reflexivity|lia]. Qed.

Lemma tierWaits_done (retryCount : nat) :
  ~ (retryCount < 2)%nat -> tierWaits retryCount = [].
Proof.
  intro H. unfold tierWaits.
  replace (2 - retryCount)%nat with 0%nat by lia. reflexivity.
Qed.

Section LadderAgain.

Variable JSON_parse : string -> Exn Json.
Variable generateContent : nat -> GenerateContentParams -> Exn Response.
Variables base64Data mimeType language : string.

#[local] Abbreviation attempt' :=
  (attemptAnalysis JSON_parse generateContent base64Data mimeType language).
#[local] Abbreviation attemptBody' :=
  (tryBlock JSON_parse generateContent base64Data mimeType language).
#[local] Abbreviation params' := (paramsFor base64Data mimeType language).
#[local] Abbreviation run' :=
  (analyzeAudio JSON_parse generateContent base64Data mimeType language).

(** The waits of a run are an initial stretch of the waits of the
    ladder. *)
Lemma waits_prefix m budget retryCount n :
  exists k,
    waits (snd (attempt' m budget retryCount n)) =
    firstn k (ladderWaits m retryCount).
Proof.
  funelim (attempt' m budget retryCount n);
    rewrite ?waits_emit; cbn [waits app snd].
  - now exists 0%nat.
  - now exists 0%nat.
  - destruct H as [k Hk]. exists (S k). rewrite Hk.
    unfold ladderWaits. now rewrite (tierWaits_next retryCount l).
  - destruct H as [k Hk]. exists k. rewrite Hk. unfold ladderWaits.
    rewrite (tierWaits_done retryCount n0).
    destruct (string_dec model0 PRO); [|contradiction].
    destruct (string_dec FLASH PRO); [discriminate|].
    now rewrite app_nil_r.
  - now exists 0%nat.
Qed.

(** A run that rejects with a quota error has climbed the whole ladder. *)
Lemma quota_rejection_climbed m budget retryCount n e :
  fst (attempt' m budget retryCount n) = Thrown e ->
  isQuota (messageOf e) = true ->
  length (calls (snd (attempt' m budget retryCount n))) = ladderCalls m retryCount
  /\ waits (snd (attempt' m budget retryCount n)) = ladderWaits m retryCount.
Proof.
  funelim (attempt' m budget retryCount n);
    rewrite ?calls_emit, ?waits_emit; cbn [calls waits app snd fst emit length];
    intros Hthrown Hq.
  - discriminate.
  - injection Hthrown as <-. congruence.
  - destruct (H _ Hthrown Hq) as [Hc Hw]. rewrite Hc, Hw.
    unfold ladderCalls, ladderWaits.
    rewrite (tierWaits_next retryCount l). split; [|reflexivity].
    destruct (string_dec model0 PRO); lia.
  - destruct (H _ Hthrown Hq) as [Hc Hw]. rewrite Hc, Hw.
    unfold ladderCalls, ladderWaits.
    rewrite (tierWaits_done retryCount n0).
    destruct (string_dec model0 PRO); [|contradiction].
    destruct (string_dec FLASH PRO); [discriminate|].
    rewrite app_nil_r. split; [lia|reflexivity].
  - unfold ladderCalls, ladderWaits.
    rewrite (tierWaits_done retryCount n0).
    destruct (string_dec model0 PRO); [contradiction|].
    split; [lia|reflexivity].
Qed.

(** X1. A rate-limit or quota error reaches the caller of
    [analyzeAudio] only from the bottom of the ladder: when the promise
    rejects with an error whose message passes [isQuota], six calls were
    made, the four backoff waits were served and the fallback was
    announced once. *)
Theorem quota_error_surfaces_only_after_six_calls (e : JsError) :
  fst run' = Thrown e ->
  isQuota (messageOf e) = true ->
  length (calls (snd run')) = 6%nat
  /\ waits (snd run') = [2000; 4000; 2000; 4000]%Z
  /\ switches (snd run') = 1%nat.
Proof.
  intros Hthrown Hq.
  destruct (quota_rejection_climbed PRO 2048 0 0 e Hthrown Hq) as [Hc Hw].
  fold run' in Hc, Hw.
  split; [exact Hc|]. split; [exact Hw|].
  destruct (calls_shape JSON_parse generateContent base64Data mimeType language
              PRO 2048 0 0) as (a & c & Hcalls & Ha & Hcc & _ & Hsw).
  fold run' in Hcalls, Hsw.
  rewrite Hcalls, length_app, !repeat_length in Hc.
  change (ladderCalls PRO 0) with 6%nat in Hc. cbn in Ha.
  rewrite Hsw. destruct c; [lia|reflexivity].
Qed.

(** X2. In every run the backoff waits are an initial stretch of 2000,
    4000, 2000, 4000 ms, so a run never spends more than 12000 ms
    waiting. *)
Theorem backoff_follows_the_ladder :
  exists k,
    waits (snd run') = firstn k [2000; 4000; 2000; 4000]%Z
    /\ (fold_right Z.add 0 (waits (snd run')) <= 12000)%Z.
Proof.
  destruct (waits_prefix PRO 2048 0 0) as [k Hk]. fold run' in Hk.
  exists k. split; [exact Hk|]. rewrite Hk.
  change (ladderWaits PRO 0) with [2000; 4000; 2000; 4000]%Z.
  destruct k as [|[|[|[|k]]]];
    cbn [firstn]; rewrite ?firstn_nil; cbn [fold_right]; lia.
Qed.

(** X3. When the three calls on the primary model are throttled and the
    first call on the fallback model answers with a body that parses,
    [analyzeAudio] returns the parsed value after four calls, waits of
    2000 and 4000 ms and one announced switch; the switch itself is not
    preceded by a wait. *)
Theorem fallback_success (e0 e1 e2 : JsError) (resp : Response) (v : Json) :
  generateContent 0 (params' PRO 2048) = inr e0 ->
  generateContent 1 (params' PRO 2048) = inr e1 ->
  generateContent 2 (params' PRO 2048) = inr e2 ->
  isQuota (messageOf e0) = true ->
  isQuota (messageOf e1) = true ->
  isQuota (messageOf e2) = true ->
  generateContent 3 (params' FLASH 1024) = inl resp ->
  falsy (text resp) = false ->
  JSON_parse (textOf (text resp)) = inl v ->
  run' =
  (Returned v,
   [ EvCall (params' PRO 2048); EvWarn (quotaWarning PRO 0); EvWait 2000;
     EvCall (params' PRO 2048); EvWarn (quotaWarning PRO 1); EvWait 4000;
     EvCall (params' PRO 2048); EvWarn (quotaWarning PRO 2);
     EvLog "Switching to Gemini 3 Flash for fallback...";
     EvCall (params' FLASH 1024) ]).
Proof.
  intros G0 G1 G2 Q0 Q1 Q2 G3 Hf Hp.
  apply (tryBlock_rejected JSON_parse) in G0, G1, G2.
  pose proof (tryBlock_parsed JSON_parse _ _ _ _ _ _ _ _ G3 Hf) as B3.
  rewrite Hp in B3.
  unfold analyzeAudio.
  rewrite (step_retry _ _ _ _ _ PRO 2048 0 0 e0 G0 Q0) by lia.
  rewrite (step_retry _ _ _ _ _ PRO 2048 1 1 e1 G1 Q1) by lia.
  rewrite (step_fallback _ _ _ _ _ 2048 2 2 e2 G2 Q2) by lia.
  rewrite (step_success _ _ _ _ _ FLASH 1024 0 3 v B3).
  reflexivity.
Qed.

(** X4. An error that has no message (a thrown value without a
    [message] property) is read as the empty message: on any attempt it
    ends the run at once, with neither retry nor fallback. *)
Theorem error_without_message_is_final m budget retryCount n (e : JsError) :
  generateContent n (params' m budget) = inr e ->
  errMessage e = None ->
  attempt' m budget retryCount n = (Thrown e, [EvCall (params' m budget)]).
Proof.
  intros Hg Hnone. apply step_fatal.
  - now apply tryBlock_rejected.
  - unfold messageOf. now rewrite Hnone.
Qed.

End LadderAgain.

(** X5. [isQuota] looks for its signals anywhere in the message: a
    message that passes still passes with any text before and after
    it. *)
Theorem quota_signal_survives_wrapping (before msg after : string) :
  isQuota msg = true ->
  isQuota (before ++ msg ++ after) = true.
Proof.
  unfold isQuota. intro H.
  assert (Hwrap : forall needle, Str.includes msg needle = true ->
                    Str.includes (before ++ msg ++ after) needle = true).
  { intros needle Hn. now apply includes_later, includes_earlier. }
  apply orb_true_iff in H as [H|H];
    [apply orb_true_iff in H as [H|H]|];
    rewrite (Hwrap _ H); rewrite ?orb_true_r; reflexivity.
Qed.

(* ================================================================== *)
(** * Properties of the submit handler *)

Lemma texts_differ :
  App.SAFETY <> App.HIGH_TRAFFIC /\ App.GENERIC <> App.HIGH_TRAFFIC
  /\ App.SAFETY <> App.GENERIC.
Proof. repeat split; discriminate. Qed.

(** The high-traffic text is only chosen for a message the orchestrator
    also reads as a quota message. *)
Lemma high_traffic_is_quota (err : JsError) :
  App.errorText err = App.HIGH_TRAFFIC -> isQuota (messageOf err) = true.
Proof.
  unfold App.errorText, isQuota.
  destruct (Str.includes (messageOf err) "429" || Str.includes (messageOf err) "quota");
    [reflexivity|].
  destruct (Str.includes (messageOf err) "safety" || Str.includes (messageOf err) "blocked");
    intro H; [now apply texts_differ in H|now apply texts_differ in H].
Qed.

Section Submitting.

Variable JSON_parse : string -> Exn Json.
Variable generateContent : nat -> GenerateContentParams -> Exn Response.

#[local] Abbreviation submit := (App.handleSubmit JSON_parse generateContent).

(** The remote calls of a submit are those of the run it starts. *)
Lemma submit_calls (st : App.State) (audio : App.AudioData) :
  App.audioData st = Some audio ->
  calls (snd (submit st)) =
  calls (snd (analyzeAudio JSON_parse generateContent
                (App.base64 audio) (App.mimeType audio) (App.language st))).
Proof.
  intro Haudio. unfold App.handleSubmit. rewrite Haudio.
  destruct (fst _); cbn [snd]; [reflexivity|].
  rewrite calls_app. cbn [calls]. apply app_nil_r.
Qed.

(** X6. With a sample loaded, [handleSubmit] always ends with the
    processing flag down and the sample and the language untouched,
    after one to six remote calls, in one of three ways: a result and
    no error, when the run returned a value other than JSON null;
    neither result nor error, when the run returned JSON null (a body
    reading [null] is stored as no result); or no result and one of the
    three fixed texts (never the raw error message), when the run
    failed. *)
Theorem submit_ends_with_result_or_fixed_text (st : App.State) (audio : App.AudioData) :
  App.audioData st = Some audio ->
  App.isProcessing (fst (submit st)) = false
  /\ App.audioData (fst (submit st)) = App.audioData st
  /\ App.language (fst (submit st)) = App.language st
  /\ ((exists v, v <> JNull
                 /\ fst (analyzeAudio JSON_parse generateContent
                           (App.base64 audio) (App.mimeType audio)
                           (App.language st)) = Returned v
                 /\ App.result (fst (submit st)) = Some v
                 /\ App.error (fst (submit st)) = None)
      \/ (fst (analyzeAudio JSON_parse generateContent
                  (App.base64 audio) (App.mimeType audio)
                  (App.language st)) = Returned JNull
          /\ App.result (fst (submit st)) = None
          /\ App.error (fst (submit st)) = None)
      \/ (exists e t,
            fst (analyzeAudio JSON_parse generateContent
                   (App.base64 audio) (App.mimeType audio)
                   (App.language st)) = Thrown e
            /\ App.result (fst (submit st)) = None
            /\ App.error (fst (submit st)) = Some t
            /\ In t [App.HIGH_TRAFFIC; App.SAFETY; App.GENERIC]))
  /\ (1 <= length (calls (snd (submit st))) <= 6)%nat.
Proof.
  intro Haudio.
  rewrite (submit_calls st audio Haudio).
  unfold App.handleSubmit. rewrite Haudio.
  destruct (calls_shape JSON_parse generateContent
              (App.base64 audio) (App.mimeType audio) (App.language st)
              PRO 2048 0 0) as (a & c & Hcalls & Ha & Hc & _).
  fold (analyzeAudio JSON_parse generateContent
          (App.base64 audio) (App.mimeType audio) (App.language st)) in Hcalls.
  cbn in Ha.
  rewrite Hcalls, length_app, !repeat_length.
  destruct (fst (analyzeAudio JSON_parse generateContent
                   (App.base64 audio) (App.mimeType audio) (App.language st)))
    as [v|err]; cbn [fst snd App.isProcessing App.audioData App.language
                     App.result App.error];
    repeat split; try lia.
  - destruct v; cbn [App.held];
      try (left; eexists; repeat split; [discriminate]);
      right; left; repeat split.
  - right. right. exists err, (App.errorText err). repeat split.
    unfold App.errorText.
    destruct (_ || _); [cbn; auto|]. destruct (_ || _); cbn; auto.
Qed.

(** X7. When a submit ends with the high-traffic text on display, the
    orchestrator has made all six calls: the text is never shown for a
    failure that was not retried to the end. *)
Theorem high_traffic_text_means_six_calls (st : App.State) (audio : App.AudioData) :
  App.audioData st = Some audio ->
  App.error (fst (submit st)) = Some App.HIGH_TRAFFIC ->
  length (calls (snd (submit st))) = 6%nat.
Proof.
  intro Haudio. unfold App.handleSubmit. rewrite Haudio.
  destruct (fst (analyzeAudio JSON_parse generateContent
                   (App.base64 audio) (App.mimeType audio) (App.language st)))
    as [v|err] eqn:Hrun; cbn [fst snd App.error]; [discriminate|].
  intro Htext. injection Htext as Htext.
  apply high_traffic_is_quota in Htext.
  destruct (quota_rejection_climbed JSON_parse generateContent
              (App.base64 audio) (App.mimeType audio) (App.language st)
              PRO 2048 0 0 err Hrun Htext) as [Hc _].
  rewrite calls_app. cbn [calls]. rewrite app_nil_r. exact Hc.
Qed.

(** X8. When the first call is refused with a message that mentions
    "safety" or "blocked" and carries no quota signal, the submit makes
    that one call, logs the error and shows the safety text. *)
Theorem blocked_content_is_reported_after_one_call
        (st : App.State) (audio : App.AudioData) (e : JsError) :
  App.audioData st = Some audio ->
  generateContent 0 (paramsFor (App.base64 audio) (App.mimeType audio)
                               (App.language st) PRO 2048) = inr e ->
  isQuota (messageOf e) = false ->
  Str.includes (messageOf e) "safety" || Str.includes (messageOf e) "blocked" = true ->
  App.error (fst (submit st)) = Some App.SAFETY
  /\ App.result (fst (submit st)) = None
  /\ snd (submit st) =
     [ EvCall (paramsFor (App.base64 audio) (App.mimeType audio)
                         (App.language st) PRO 2048);
       EvError e ].
Proof.
  intros Haudio Hg Hq Hsafe. unfold App.handleSubmit. rewrite Haudio.
  unfold analyzeAudio.
  rewrite (step_fatal JSON_parse generateContent _ _ _ PRO 2048 0 0 e
             (tryBlock_rejected JSON_parse _ _ _ _ _ _ _ _ Hg) Hq).
  cbn [fst snd App.error App.result app]. repeat split.
  unfold App.errorText. unfold isQuota in Hq.
  apply orb_false_iff in Hq as [Hq _]. now rewrite Hq, Hsafe.
Qed.

(** X9. When every call is refused with a message that contains "429"
    or "quota", the submit makes six calls and shows the high-traffic
    text. *)
Theorem throttled_remote_shows_high_traffic (st : App.State) (audio : App.AudioData) :
  App.audioData st = Some audio ->
  (forall k p, exists e,
      generateContent k p = inr e
      /\ Str.includes (messageOf e) "429" || Str.includes (messageOf e) "quota" = true) ->
  App.error (fst (submit st)) = Some App.HIGH_TRAFFIC
  /\ App.result (fst (submit st)) = None
  /\ length (calls (snd (submit st))) = 6%nat.
Proof.
  intros Haudio Hall. unfold App.handleSubmit. rewrite Haudio.
  destruct (last_attempt_decides JSON_parse generateContent
              (App.base64 audio) (App.mimeType audio) (App.language st)
              PRO 2048 0 0) as (earlier & m & budget & _ & Hlast).
  destruct (Hall (0 + length earlier)%nat
              (paramsFor (App.base64 audio) (App.mimeType audio)
                         (App.language st) m budget)) as (e & Hg & Hsig).
  rewrite (tryBlock_rejected JSON_parse _ _ _ _ _ _ _ _ Hg) in Hlast.
  fold (analyzeAudio JSON_parse generateContent
          (App.base64 audio) (App.mimeType audio) (App.language st)) in Hlast.
  destruct (fst (analyzeAudio JSON_parse generateContent
                   (App.base64 audio) (App.mimeType audio) (App.language st)))
    as [v|err] eqn:Hrun; cbn [settle] in Hlast; [discriminate|].
  injection Hlast as <-.
  assert (Hq : isQuota (messageOf e) = true).
  { unfold isQuota. now rewrite Hsig. }
  destruct (quota_rejection_climbed JSON_parse generateContent
              (App.base64 audio) (App.mimeType audio) (App.language st)
              PRO 2048 0 0 e Hrun Hq) as [Hc _].
  cbn [fst snd App.error App.result]. repeat split.
  - unfold App.errorText. now rewrite Hsig.
  - rewrite calls_app. cbn [calls]. rewrite app_nil_r. exact Hc.
Qed.

(** X10. A sample handed over by the uploader replaces the old one and
    wipes the result and error on display.  Submitting then sends that
    sample, with the selected language in the prompt, on every call it
    makes, and makes at least one; after the sample was cleared,
    submitting makes no call at all and changes nothing. *)
Theorem new_sample_then_submit (st : App.State) (audio : App.AudioData) :
  App.result (App.handleAudioReady (Some audio) st) = None
  /\ App.error (App.handleAudioReady (Some audio) st) = None
  /\ calls (snd (submit (App.handleAudioReady (Some audio) st))) <> []
  /\ Forall (fun p => contents p =
                      [ InlineData (App.mimeType audio) (App.base64 audio);
                        TextPart (prompt (App.language st)) ])
            (calls (snd (submit (App.handleAudioReady (Some audio) st))))
  /\ submit (App.handleAudioReady None st) = (App.handleAudioReady None st, []).
Proof.
  split; [reflexivity|]. split; [reflexivity|].
  rewrite (submit_calls (App.handleAudioReady (Some audio) st) audio eq_refl).
  cbn [App.handleAudioReady App.language].
  destruct (calls_shape JSON_parse generateContent
              (App.base64 audio) (App.mimeType audio) (App.language st)
              PRO 2048 0 0) as (a & c & Hcalls & Ha & _).
  fold (analyzeAudio JSON_parse generateContent
          (App.base64 audio) (App.mimeType audio) (App.language st)) in Hcalls.
  rewrite Hcalls. repeat split.
  - destruct a; [lia|discriminate].
  - apply Forall_app; split; apply Forall_repeat; reflexivity.
Qed.

End Submitting.

(* ================================================================== *)
(** * Properties of the uploader *)

Lemma string_length_app (x y : string) :
  String.length (x ++ y) = (String.length x + String.length y)%nat.
Proof. induction x; simpl; congruence. Qed.

Lemma string_app_inj (x x' y y' : string) :
  String.length x = String.length x' ->
  x ++ y = x' ++ y' -> x = x' /\ y = y'.
Proof.
  revert x'. induction x as [|c x IH]; intros [|c' x'] Hlen Heq;
    try discriminate; simpl in *.
  - now split.
  - injection Heq as -> Heq. injection Hlen as Hlen.
    destruct (IH _ Hlen Heq) as [-> ->]. now split.
Qed.

Lemma some_inj {A} (x y : A) : Some x = Some y -> x = y.
Proof. now intros [= ->]. Qed.

Lemma ofNat_inj (a b : nat) : Str.ofNat a = Str.ofNat b -> a = b.
Proof.
  unfold Str.ofNat. intro H.
  apply (f_equal NilEmpty.uint_of_string) in H.
  rewrite !NilEmpty.usu in H. injection H as H.
  apply (f_equal Nat.of_uint) in H.
  now rewrite !Unsigned.of_to in H.
Qed.

(** The seconds field: two decimal digits. *)
Lemma seconds_field (s : nat) :
  (s < 60)%nat ->
  Uploader.padStart 2 "0" (Str.ofNat s) =
  String (ascii_of_nat (48 + s / 10))
         (String (ascii_of_nat (48 + s mod 10)) EmptyString).
Proof.
  intro H.
  do 60 (destruct s as [|s]; [reflexivity|]). lia.
Qed.

(** X11. [formatTime] prints the whole minutes in decimal, without an
    upper limit and without an hours field, then a colon, then the
    remaining seconds as exactly two decimal digits. *)
Theorem formatTime_shape (seconds : nat) :
  Uploader.formatTime seconds =
  Str.ofNat (seconds / 60) ++ ":" ++
  String (ascii_of_nat (48 + (seconds mod 60) / 10))
         (String (ascii_of_nat (48 + (seconds mod 60) mod 10)) EmptyString)
  /\ (seconds mod 60 < 60)%nat
  /\ String.length (Uploader.formatTime seconds) =
     (String.length (Str.ofNat (seconds / 60)) + 3)%nat.
Proof.
  assert (Hlt : (seconds mod 60 < 60)%nat) by (apply Nat.mod_upper_bound; lia).
  unfold Uploader.formatTime. cbv zeta.
  rewrite (seconds_field _ Hlt).
  split; [reflexivity|]. split; [exact Hlt|].
  rewrite string_length_app. reflexivity.
Qed.

(** X12. Two different durations are never displayed alike. *)
Theorem formatTime_injective (a b : nat) :
  Uploader.formatTime a = Uploader.formatTime b -> a = b.
Proof.
  assert (Ha : (a mod 60 < 60)%nat) by (apply Nat.mod_upper_bound; lia).
  assert (Hb : (b mod 60 < 60)%nat) by (apply Nat.mod_upper_bound; lia).
  unfold Uploader.formatTime. cbv zeta.
  rewrite (seconds_field _ Ha), (seconds_field _ Hb). intro Heq.
  assert (Hlen : String.length (Str.ofNat (a / 60)) =
                 String.length (Str.ofNat (b / 60))).
  { apply (f_equal String.length) in Heq.
    rewrite !string_length_app in Heq. cbn [String.length] in Heq. lia. }
  destruct (string_app_inj _ _ _ _ Hlen Heq) as [Hmin Hsec].
  apply ofNat_inj in Hmin.
  pose proof (f_equal (String.get 1) Hsec) as Htens.
  pose proof (f_equal (String.get 2) Hsec) as Hunits.
  cbn [String.get append] in Htens, Hunits.
  apply (f_equal (option_map nat_of_ascii)) in Htens, Hunits.
  cbn [option_map] in Htens, Hunits.
  assert (Hta : (a mod 60 / 10 < 10)%nat) by (apply Nat.Div0.div_lt_upper_bound; lia).
  assert (Htb : (b mod 60 / 10 < 10)%nat) by (apply Nat.Div0.div_lt_upper_bound; lia).
  assert (Hua : (a mod 60 mod 10 < 10)%nat) by (apply Nat.mod_upper_bound; lia).
  assert (Hub : (b mod 60 mod 10 < 10)%nat) by (apply Nat.mod_upper_bound; lia).
  rewrite !nat_ascii_embedding in Htens, Hunits by lia.
  apply some_inj in Htens, Hunits.
  pose proof (Nat.div_mod_eq a 60) as Da.
  pose proof (Nat.div_mod_eq b 60) as Db.
  pose proof (Nat.div_mod_eq (a mod 60) 10) as Dsa.
  pose proof (Nat.div_mod_eq (b mod 60) 10) as Dsb.
  lia.
Qed.

(** ** Reading a file *)

Lemma string_app_nil (x : string) : x ++ "" = x.
Proof. induction x; simpl; congruence. Qed.

Lemma string_app_assoc (x y z : string) : (x ++ y) ++ z = x ++ y ++ z.
Proof. induction x; simpl; congruence. Qed.

Lemma includes_char_cons (c d : ascii) (r : string) :
  Str.includes (String d r) (String c EmptyString) =
  Ascii.eqb c d || Str.includes r (String c EmptyString).
Proof. simpl. now rewrite andb_true_r. Qed.

Lemma includes_char_app (c : ascii) (x y : string) :
  Str.includes (x ++ y) (String c EmptyString) =
  Str.includes x (String c EmptyString) || Str.includes y (String c EmptyString).
Proof.
  induction x as [|d x IH].
  - reflexivity.
  - change (String d x ++ y) with (String d (x ++ y)).
    now rewrite !includes_char_cons, IH, orb_assoc.
Qed.

Lemma split_without_separator (c : ascii) (s : string) :
  Str.includes s (String c EmptyString) = false ->
  Uploader.split c s = [s].
Proof.
  induction s as [|d s IH]; intro H; [reflexivity|].
  rewrite includes_char_cons in H. apply orb_false_iff in H as [Hd Hs].
  simpl. rewrite Ascii.eqb_sym, Hd. now rewrite (IH Hs).
Qed.

Lemma split_at_first_separator (c : ascii) (x rest : string) :
  Str.includes x (String c EmptyString) = false ->
  Uploader.split c (x ++ String c rest) = x :: Uploader.split c rest.
Proof.
  induction x as [|d x IH]; intro H.
  - simpl. now rewrite Ascii.eqb_refl.
  - rewrite includes_char_cons in H. apply orb_false_iff in H as [Hd Hx].
    simpl. rewrite Ascii.eqb_sym, Hd. now rewrite (IH Hx).
Qed.

Section Reading.

Variable readAsDataURL : Uploader.Blob -> Exn string.
Variable createObjectURL : Uploader.Blob -> string.

#[local] Abbreviation convert := (Uploader.convertToBase64 readAsDataURL).
#[local] Abbreviation handle := (Uploader.handleFile readAsDataURL createObjectURL).

(** The second field of a data URL. *)
Lemma second_field (header field tail : string) :
  Str.includes header "," = false ->
  Str.includes field "," = false ->
  tail = "" \/ (exists r, tail = "," ++ r) ->
  nth_error (Uploader.split "," (header ++ "," ++ field ++ tail)) 1 = Some field.
Proof.
  intros Hh Hf Htail.
  change (header ++ "," ++ field ++ tail)
    with (header ++ String "," (field ++ tail)).
  rewrite (split_at_first_separator _ _ _ Hh). cbn [nth_error].
  destruct Htail as [->|[r ->]].
  - now rewrite string_app_nil, (split_without_separator _ _ Hf).
  - change (field ++ "," ++ r) with (field ++ String "," r).
    now rewrite (split_at_first_separator _ _ _ Hf).
Qed.

(** X13. [convertToBase64] resolves with the text between the first and
    the second comma of the data URL: the whole payload when neither
    the header nor the payload holds a comma, and only its first piece
    when something follows a second comma. *)
Theorem convertToBase64_takes_second_field
        (b : Uploader.Blob) (header field tail : string) :
  readAsDataURL b = inl (header ++ "," ++ field ++ tail) ->
  Str.includes header "," = false ->
  Str.includes field "," = false ->
  tail = "" \/ (exists r, tail = "," ++ r) ->
  convert b = inl (Some field).
Proof.
  intros Hread Hh Hf Htail. unfold Uploader.convertToBase64.
  rewrite Hread. cbn [bind ret].
  now rewrite (second_field _ _ _ Hh Hf Htail).
Qed.

(** The payload of [data:<type>;base64,<payload>]. *)
Lemma convertToBase64_payload (b : Uploader.Blob) (ty payload : string) :
  readAsDataURL b = inl ("data:" ++ ty ++ ";base64," ++ payload) ->
  Str.includes ty "," = false ->
  Str.includes payload "," = false ->
  convert b = inl (Some payload).
Proof.
  intros Hread Hty Hpay. unfold Uploader.convertToBase64.
  rewrite Hread. cbn [bind ret].
  assert (Hheader : Str.includes ("data:" ++ ty ++ ";base64") "," = false).
  { rewrite !includes_char_app, Hty. reflexivity. }
  pose proof (second_field ("data:" ++ ty ++ ";base64") payload ""
                Hheader Hpay (or_introl eq_refl)) as H.
  rewrite string_app_nil in H.
  replace ("data:" ++ ty ++ ";base64," ++ payload)
    with (("data:" ++ ty ++ ";base64") ++ "," ++ payload); [now rewrite H|].
  now rewrite !string_app_assoc.
Qed.

(** X14. [handleFile] announces a sample exactly when the type of the
    file starts with "audio/", its size is at most 10485760 bytes (a
    file of exactly that size passes) and the reader ends with a data
    URL; the announcement then carries the second comma field of that
    URL, the type and the blob of the file itself. *)
Theorem handleFile_gate (f : Uploader.File) (st : Uploader.State)
        (d : option Uploader.AudioData) :
  In (Uploader.AudioReady d) (snd (handle f st)) <->
  (Str.startsWith "audio/" (Uploader.type (Uploader.data f)) = true
   /\ (Uploader.size (Uploader.data f) <= 10485760)%Z
   /\ exists url,
        readAsDataURL (Uploader.data f) = inl url
        /\ d = Some {| Uploader.base64 := nth_error (Uploader.split "," url) 1;
                       Uploader.mimeType := Uploader.type (Uploader.data f);
                       Uploader.blob := Uploader.data f |}).
Proof.
  unfold Uploader.handleFile, Uploader.convertToBase64.
  destruct (Str.startsWith "audio/" (Uploader.type (Uploader.data f))); cbn [negb].
  2: { split; [intros [Hin|[]]; discriminate Hin|intros [Habs _]; discriminate Habs]. }
  destruct (Z.ltb_spec (10 * 1024 * 1024) (Uploader.size (Uploader.data f)))
    as [Hlarge|Hfits].
  { split; [intros [Hin|[]]; discriminate Hin|intros (_ & Hsize & _); lia]. }
  destruct (readAsDataURL (Uploader.data f)) as [url|e]; cbn [bind ret snd].
  - split.
    + intros [Hin|[]]. injection Hin as <-.
      repeat split; [lia|]. now exists url.
    + intros (_ & _ & url' & Hurl & ->). injection Hurl as <-. now left.
  - split; [intros [Hin|[]]; discriminate Hin|].
    intros (_ & _ & url & Hurl & _). discriminate Hurl.
Qed.

(** X15. A file of another type, or one above 10485760 bytes, changes
    nothing in the uploader: the state stays as it was, nothing is read
    or announced, and exactly one alert is raised; the type is checked
    first, so a large non-audio file gets the type alert. *)
Theorem handleFile_rejection (f : Uploader.File) (st : Uploader.State) :
  Str.startsWith "audio/" (Uploader.type (Uploader.data f)) = false
  \/ (10485760 < Uploader.size (Uploader.data f))%Z ->
  handle f st =
  (st, [Uploader.Alert
          (if Str.startsWith "audio/" (Uploader.type (Uploader.data f))
           then "File size too large. Please upload a file smaller than 10MB."
           else "Please upload a valid audio file.")]).
Proof.
  unfold Uploader.handleFile.
  destruct (Str.startsWith "audio/" (Uploader.type (Uploader.data f))); cbn [negb];
    [|reflexivity].
  intros [H|H]; [discriminate|].
  destruct (Z.ltb_spec (10 * 1024 * 1024) (Uploader.size (Uploader.data f)));
    [reflexivity|lia].
Qed.

(** X16. An accepted file whose data URL reads
    [data:<type>;base64,<payload>], with no comma in the type or in the
    payload, is shown in the uploader and announced once, with exactly
    that payload and the type of the file. *)
Theorem handleFile_announces_payload
        (f : Uploader.File) (st : Uploader.State) (payload : string) :
  Str.startsWith "audio/" (Uploader.type (Uploader.data f)) = true ->
  (Uploader.size (Uploader.data f) <= 10485760)%Z ->
  readAsDataURL (Uploader.data f) =
    inl ("data:" ++ Uploader.type (Uploader.data f) ++ ";base64," ++ payload) ->
  Str.includes (Uploader.type (Uploader.data f)) "," = false ->
  Str.includes payload "," = false ->
  handle f st =
  (Uploader.setAudioUrl (Some (createObjectURL (Uploader.data f)))
     (Uploader.setFile (Some f) st),
   [Uploader.AudioReady
      (Some {| Uploader.base64 := Some payload;
               Uploader.mimeType := Uploader.type (Uploader.data f);
               Uploader.blob := Uploader.data f |})]).
Proof.
  intros Htype Hsize Hread Hty Hpay. unfold Uploader.handleFile.
  rewrite Htype. cbn [negb].
  destruct (Z.ltb_spec (10 * 1024 * 1024) (Uploader.size (Uploader.data f)));
    [lia|].
  assert (Hconv : convert (Uploader.data f) = inl (Some payload)).
  { apply convertToBase64_payload with (Uploader.type (Uploader.data f));
      assumption. }
  now rewrite Hconv.
Qed.

(** X17. When the data URL holds no comma at all, an accepted file is
    still announced, with an undefined [base64]. *)
Theorem handleFile_without_comma
        (f : Uploader.File) (st : Uploader.State) (url : string) :
  Str.startsWith "audio/" (Uploader.type (Uploader.data f)) = true ->
  (Uploader.size (Uploader.data f) <= 10485760)%Z ->
  readAsDataURL (Uploader.data f) = inl url ->
  Str.includes url "," = false ->
  snd (handle f st) =
  [Uploader.AudioReady
     (Some {| Uploader.base64 := None;
              Uploader.mimeType := Uploader.type (Uploader.data f);
              Uploader.blob := Uploader.data f |})].
Proof.
  intros Htype Hsize Hread Hno. unfold Uploader.handleFile.
  rewrite Htype. cbn [negb].
  destruct (Z.ltb_spec (10 * 1024 * 1024) (Uploader.size (Uploader.data f)));
    [lia|].
  unfold Uploader.convertToBase64. rewrite Hread. cbn [bind ret].
  now rewrite (split_without_separator _ _ Hno).
Qed.

End Reading.

(** ** Recording *)

Lemma empty_chunk_has_no_content (d : Uploader.Blob) :
  (0 <? Uploader.size d)%Z = false -> Uploader.content d = [].
Proof.
  unfold Uploader.size. intro H. apply Z.ltb_ge in H.
  destruct (Uploader.content d); [reflexivity|]. cbn [length] in H. lia.
Qed.

(** Dropping the empty chunks loses no byte. *)
Lemma content_of_kept_chunks (ds : list Uploader.Blob) :
  List.concat (map Uploader.content
                   (filter (fun d => (0 <? Uploader.size d)%Z) ds)) =
  List.concat (map Uploader.content ds).
Proof.
  induction ds as [|d ds IH]; [reflexivity|]. cbn [filter].
  destruct (0 <? Uploader.size d)%Z eqn:Hd; cbn [map List.concat].
  - now rewrite IH.
  - now rewrite IH, (empty_chunk_has_no_content d Hd).
Qed.

(** What a run of recorder events leaves in the state. *)
Lemma state_after_events (evs : list Uploader.RecorderEvent) (st : Uploader.State) :
  let st' := fold_left (fun s ev => Uploader.during ev s) evs st in
  Uploader.chunksRef st' =
    (Uploader.chunksRef st
     ++ filter (fun d => (0 <? Uploader.size d)%Z) (Uploader.deliveredOf evs))%list
  /\ Uploader.recordingTime st' =
       (Uploader.recordingTime st + Uploader.secondsOf evs)%nat
  /\ Uploader.isRecording st' = Uploader.isRecording st
  /\ Uploader.mediaRecorderRef st' = Uploader.mediaRecorderRef st
  /\ Uploader.timerRef st' = Uploader.timerRef st.
Proof.
  revert st. induction evs as [|[d|] evs IH]; intro st; cbn [fold_left].
  - cbn. rewrite app_nil_r, Nat.add_0_r. repeat split.
  - destruct (IH (Uploader.during (Uploader.Delivered d) st))
      as (Hc & Ht & Hr & Hm & Hi).
    cbv zeta. rewrite Hc, Ht, Hr, Hm, Hi.
    cbn [Uploader.during Uploader.deliveredOf Uploader.secondsOf filter].
    unfold Uploader.ondataavailable.
    destruct (0 <? Uploader.size d)%Z; cbn; rewrite <- ?app_assoc;
      repeat split.
  - destruct (IH (Uploader.during Uploader.Second st))
      as (Hc & Ht & Hr & Hm & Hi).
    cbv zeta. rewrite Hc, Ht, Hr, Hm, Hi.
    cbn. repeat split. lia.
Qed.

(** Deliveries alone, seen as recorder events. *)
Lemma deliveries_as_events (ds : list Uploader.Blob) (s : Uploader.State) :
  fold_left (fun s d => Uploader.ondataavailable d s) ds s =
  fold_left (fun s ev => Uploader.during ev s) (map Uploader.Delivered ds) s.
Proof. revert s. induction ds as [|d ds IH]; intro s; [reflexivity|]. apply IH. Qed.

Lemma deliveredOf_deliveries (ds : list Uploader.Blob) :
  Uploader.deliveredOf (map Uploader.Delivered ds) = ds.
Proof. induction ds as [|d ds IH]; cbn; congruence. Qed.

Lemma secondsOf_deliveries (ds : list Uploader.Blob) :
  Uploader.secondsOf (map Uploader.Delivered ds) = 0%nat.
Proof. induction ds as [|d ds IH]; cbn; congruence. Qed.

Section Recording.

Variable readAsDataURL : Uploader.Blob -> Exn string.
Variable createObjectURL : Uploader.Blob -> string.

(** X18. A recording session: from any state, after the microphone was
    granted, any sequence of delivered data and timer seconds, a click
    on stop, and the data the recorder still delivers before its stop
    event, the recorder was stopped once, only non-empty chunks were
    kept, the clock shows the seconds counted in this session, and the
    blob built at the stop event holds every delivered byte, in order,
    under the type audio/webm whatever the types of the chunks.  When
    it can be read it is announced as audio/webm, without any size
    limit, and the microphone tracks are stopped after that. *)
Theorem recording_session
        (st : Uploader.State) (timerId : Z)
        (evs : list Uploader.RecorderEvent) (late : list Uploader.Blob)
        (url : string) :
  let started := fst (Uploader.startRecording (inl timerId) st) in
  let recording := fold_left (fun s ev => Uploader.during ev s) evs started in
  let stopped := Uploader.stopRecording recording in
  let flushed :=
    fold_left (fun s d => Uploader.ondataavailable d s) late (fst stopped) in
  let recorded :=
    {| Uploader.type := "audio/webm";
       Uploader.content :=
         List.concat (map Uploader.content (Uploader.deliveredOf evs ++ late)) |} in
  readAsDataURL recorded = inl url ->
  snd stopped =
    (Uploader.RecorderStop ::
     (if (timerId =? 0)%Z then [] else [Uploader.ClearInterval timerId]))%list
  /\ Uploader.isRecording flushed = false
  /\ Uploader.recordingTime flushed = Uploader.secondsOf evs
  /\ Forall (fun d => 0 < Uploader.size d)%Z (Uploader.chunksRef flushed)
  /\ Uploader.newBlob (Uploader.chunksRef flushed) "audio/webm" = recorded
  /\ snd (Uploader.onstop readAsDataURL createObjectURL flushed) =
     [ Uploader.AudioReady
         (Some {| Uploader.base64 := nth_error (Uploader.split "," url) 1;
                  Uploader.mimeType := "audio/webm";
                  Uploader.blob := recorded |});
       Uploader.StopTracks ]
  /\ Uploader.file (fst (Uploader.onstop readAsDataURL createObjectURL flushed)) =
     Some {| Uploader.name := "recording.webm"; Uploader.data := recorded |}.
Proof.
  cbv zeta. intro Hread.
  set (started := fst (Uploader.startRecording (inl timerId) st)).
  destruct (state_after_events evs started) as (Hc & Ht & Hr & Hm & Hi).
  cbv zeta in Hc, Ht, Hr, Hm, Hi.
  set (recording := fold_left (fun s ev => Uploader.during ev s) evs started) in *.
  change (Uploader.chunksRef started) with (@nil Uploader.Blob) in Hc.
  change (Uploader.recordingTime started) with 0%nat in Ht.
  change (Uploader.isRecording started) with true in Hr.
  change (Uploader.mediaRecorderRef started) with true in Hm.
  change (Uploader.timerRef started) with (Some timerId) in Hi.
  cbn [app Nat.add] in Hc, Ht.
  pose proof (deliveries_as_events late) as Hlate.
  pose proof (deliveredOf_deliveries late) as Hdel.
  pose proof (secondsOf_deliveries late) as Hsec.
  assert (Hstop : Uploader.stopRecording recording =
    (if (timerId =? 0)%Z
     then Uploader.setIsRecording false recording
     else Uploader.setTimerRef None (Uploader.setIsRecording false recording),
     (Uploader.RecorderStop ::
      (if (timerId =? 0)%Z then [] else [Uploader.ClearInterval timerId]))%list)).
  { unfold Uploader.stopRecording. rewrite Hm, Hr, Hi. cbn [andb].
    now destruct (timerId =? 0)%Z. }
  rewrite Hstop. cbn [fst snd]. rewrite Hlate.
  set (stopped := if (timerId =? 0)%Z
                  then Uploader.setIsRecording false recording
                  else Uploader.setTimerRef None
                         (Uploader.setIsRecording false recording)).
  destruct (state_after_events (map Uploader.Delivered late) stopped)
    as (Hc' & Ht' & Hr' & _).
  cbv zeta in Hc', Ht', Hr'. rewrite Hdel in Hc'. rewrite Hsec in Ht'.
  assert (Hcs : Uploader.chunksRef stopped = Uploader.chunksRef recording)
    by (unfold stopped; now destruct (timerId =? 0)%Z).
  assert (Hts : Uploader.recordingTime stopped = Uploader.recordingTime recording)
    by (unfold stopped; now destruct (timerId =? 0)%Z).
  assert (Hrs : Uploader.isRecording stopped = false)
    by (unfold stopped; now destruct (timerId =? 0)%Z).
  rewrite Hcs, Hc in Hc'. rewrite Hts, Ht, Nat.add_0_r in Ht'. rewrite Hrs in Hr'.
  set (flushed := fold_left (fun s ev => Uploader.during ev s)
                            (map Uploader.Delivered late) stopped) in *.
  assert (Hblob : Uploader.newBlob (Uploader.chunksRef flushed) "audio/webm" =
    {| Uploader.type := "audio/webm";
       Uploader.content :=
         List.concat (map Uploader.content (Uploader.deliveredOf evs ++ late)) |}).
  { unfold Uploader.newBlob. rewrite Hc', <- filter_app.
    now rewrite content_of_kept_chunks. }
  split; [reflexivity|]. split; [exact Hr'|]. split; [exact Ht'|].
  split.
  { rewrite Hc', <- filter_app. apply Forall_forall. intros d Hd.
    apply filter_In in Hd as [_ Hd]. now apply Z.ltb_lt. }
  split; [exact Hblob|].
  unfold Uploader.onstop, Uploader.convertToBase64. cbv zeta.
  rewrite Hblob, Hread. cbn [bind ret fst snd Uploader.file Uploader.setFile].
  split; [reflexivity|].
  unfold Uploader.newBlob. cbn [map List.concat Uploader.content].
  now rewrite app_nil_r.
Qed.

End Recording.

(* ================================================================== *)
(** * The uploader and the submit handler together *)

Section Together.

Variable JSON_parse : string -> Exn Json.
Variable generateContent : nat -> GenerateContentParams -> Exn Response.
Variable readAsDataURL : Uploader.Blob -> Exn string.
Variable createObjectURL : Uploader.Blob -> string.

(** X19. What is uploaded is what is sent: after [handleFile] accepted
    a file whose data URL reads [data:<type>;base64,<payload>] (no comma
    in type or payload) and the application received the announcement,
    a submit makes at least one call, and every call it makes carries
    that payload under the type of the file, which starts with
    "audio/", next to the prompt for the selected language. *)
Theorem uploaded_file_is_what_is_sent
        (f : Uploader.File) (ust : Uploader.State) (ast : App.State)
        (payload : string) :
  Str.startsWith "audio/" (Uploader.type (Uploader.data f)) = true ->
  (Uploader.size (Uploader.data f) <= 10485760)%Z ->
  readAsDataURL (Uploader.data f) =
    inl ("data:" ++ Uploader.type (Uploader.data f) ++ ";base64," ++ payload) ->
  Str.includes (Uploader.type (Uploader.data f)) "," = false ->
  Str.includes payload "," = false ->
  exists ast',
    receiveAll (snd (Uploader.handleFile readAsDataURL createObjectURL f ust)) ast
      = Some ast'
    /\ calls (snd (App.handleSubmit JSON_parse generateContent ast')) <> []
    /\ Forall (fun p => contents p =
                        [ InlineData (Uploader.type (Uploader.data f)) payload;
                          TextPart (prompt (App.language ast)) ])
              (calls (snd (App.handleSubmit JSON_parse generateContent ast'))).
Proof.
  intros Htype Hsize Hread Hty Hpay.
  unfold Uploader.handleFile. rewrite Htype. cbn [negb].
  destruct (Z.ltb_spec (10 * 1024 * 1024) (Uploader.size (Uploader.data f)));
    [lia|].
  rewrite (convertToBase64_payload readAsDataURL _ _ _ Hread Hty Hpay).
  cbn [snd receiveAll receive sampleOf Uploader.base64 Uploader.mimeType].
  set (sample := {| App.base64 := payload;
                    App.mimeType := Uploader.type (Uploader.data f) |}).
  exists (App.handleAudioReady (Some sample) ast). split; [reflexivity|].
  rewrite (submit_calls JSON_parse generateContent
             (App.handleAudioReady (Some sample) ast) sample eq_refl).
  cbn [App.handleAudioReady App.language App.base64 App.mimeType sample].
  destruct (calls_shape JSON_parse generateContent
              payload (Uploader.type (Uploader.data f)) (App.language ast)
              PRO 2048 0 0) as (a & c & Hcalls & Ha & _).
  fold (analyzeAudio JSON_parse generateContent
          payload (Uploader.type (Uploader.data f)) (App.language ast)) in Hcalls.
  rewrite Hcalls. split.
  - destruct a; [lia|discriminate].
  - apply Forall_app; split; apply Forall_repeat; reflexivity.
Qed.

(** X20. After [clearAudio] nothing can be submitted: the uploader shows
    no file and no player, the application is told there is no sample,
    drops the result and error on display, and its submit handler makes
    no remote call. *)
Theorem cleared_sample_is_not_submitted (ust : Uploader.State) (ast : App.State) :
  Uploader.file (fst (Uploader.clearAudio ust)) = None
  /\ Uploader.audioUrl (fst (Uploader.clearAudio ust)) = None
  /\ Uploader.isPlaying (fst (Uploader.clearAudio ust)) = false
  /\ exists ast',
       receiveAll (snd (Uploader.clearAudio ust)) ast = Some ast'
       /\ App.result ast' = None /\ App.error ast' = None
       /\ App.handleSubmit JSON_parse generateContent ast' = (ast', []).
Proof.
  unfold Uploader.clearAudio. cbv zeta. cbn [fst snd].
  repeat split;
    try (destruct (Uploader.audioRef _); reflexivity).
  eexists. split; [reflexivity|]. repeat split.
Qed.

End Together.

(* ================================================================== *)
(** * The further properties on concrete inputs *)

Lemma quota_error_witness :
  fst (analyzeAudio Scenario.parse
         (Scenario.always (Scenario.rejects "429 Too Many Requests"))
         "UklGRg==" "audio/wav" "English")
  = Thrown (Error "429 Too Many Requests")
  /\ isQuota (messageOf (Error "429 Too Many Requests")) = true
  /\ length (calls (snd (analyzeAudio Scenario.parse
         (Scenario.always (Scenario.rejects "429 Too Many Requests"))
         "UklGRg==" "audio/wav" "English"))) = 6%nat.
Proof.
  split; [reflexivity|]. split; [reflexivity|].
  apply (quota_error_surfaces_only_after_six_calls Scenario.parse
           (Scenario.always (Scenario.rejects "429 Too Many Requests"))
           "UklGRg==" "audio/wav" "English" (Error "429 Too Many Requests"));
    reflexivity.
Defined.

Lemma fallback_success_witness :
  isQuota (messageOf (Error "quota exceeded")) = true
  /\ Scenario.parse Scenario.goodBody = inl Scenario.good
  /\ fst (analyzeAudio Scenario.parse
            (Scenario.script [ Scenario.rejects "quota exceeded";
                               Scenario.rejects "quota exceeded";
                               Scenario.rejects "quota exceeded";
                               Scenario.body Scenario.goodBody ]
                             (Scenario.rejects "unreachable"))
            "UklGRg==" "audio/wav" "English")
     = Returned Scenario.good.
Proof.
  split; [reflexivity|]. split; [reflexivity|].
  rewrite (fallback_success Scenario.parse
             (Scenario.script [ Scenario.rejects "quota exceeded";
                                Scenario.rejects "quota exceeded";
                                Scenario.rejects "quota exceeded";
                                Scenario.body Scenario.goodBody ]
                              (Scenario.rejects "unreachable"))
             "UklGRg==" "audio/wav" "English"
             (Error "quota exceeded") (Error "quota exceeded")
             (Error "quota exceeded")
             {| text := Some Scenario.goodBody |} Scenario.good);
    reflexivity.
Defined.

Lemma error_without_message_witness :
  errMessage Studio.silent = None
  /\ attemptAnalysis Scenario.parse (Scenario.always (inr Studio.silent))
       "UklGRg==" "audio/wav" "English" PRO 2048 0 0
     = (Thrown Studio.silent,
        [EvCall (paramsFor "UklGRg==" "audio/wav" "English" PRO 2048)]).
Proof.
  split; [reflexivity|].
  apply (error_without_message_is_final Scenario.parse
           (Scenario.always (inr Studio.silent))
           "UklGRg==" "audio/wav" "English" PRO 2048 0 0 Studio.silent);
    reflexivity.
Defined.

Lemma quota_signal_witness :
  isQuota "quota" = true
  /\ isQuota ("Unexpected token 'q', " ++ "quota" ++ " is not valid JSON") = true.
Proof.
  split; [reflexivity|].
  apply (quota_signal_survives_wrapping
           "Unexpected token 'q', " "quota" " is not valid JSON").
  reflexivity.
Defined.

Lemma submit_ends_witness :
  App.audioData Scenario.sample
  = Some {| App.base64 := "UklGRg=="; App.mimeType := "audio/wav" |}
  /\ App.isProcessing
       (fst (App.handleSubmit Scenario.parse
               (Scenario.always (Scenario.body Scenario.goodBody))
               Scenario.sample)) = false.
Proof.
  split; [reflexivity|].
  apply (submit_ends_with_result_or_fixed_text Scenario.parse
           (Scenario.always (Scenario.body Scenario.goodBody))
           Scenario.sample
           {| App.base64 := "UklGRg=="; App.mimeType := "audio/wav" |}).
  reflexivity.
Defined.

Lemma high_traffic_witness :
  App.error (fst (App.handleSubmit Scenario.parse
                    (Scenario.always (Scenario.rejects "429 Too Many Requests"))
                    Scenario.sample)) = Some App.HIGH_TRAFFIC
  /\ length (calls (snd (App.handleSubmit Scenario.parse
                    (Scenario.always (Scenario.rejects "429 Too Many Requests"))
                    Scenario.sample))) = 6%nat.
Proof.
  split; [reflexivity|].
  apply (high_traffic_text_means_six_calls Scenario.parse
           (Scenario.always (Scenario.rejects "429 Too Many Requests"))
           Scenario.sample
           {| App.base64 := "UklGRg=="; App.mimeType := "audio/wav" |});
    reflexivity.
Defined.

Lemma blocked_content_witness :
  isQuota (messageOf (Error "Request blocked by safety filters")) = false
  /\ App.error (fst (App.handleSubmit Scenario.parse
                       (Scenario.always
                          (Scenario.rejects "Request blocked by safety filters"))
                       Scenario.sample)) = Some App.SAFETY.
Proof.
  split; [reflexivity|].
  apply (blocked_content_is_reported_after_one_call Scenario.parse
           (Scenario.always (Scenario.rejects "Request blocked by safety filters"))
           Scenario.sample
           {| App.base64 := "UklGRg=="; App.mimeType := "audio/wav" |}
           (Error "Request blocked by safety filters"));
    reflexivity.
Defined.

Lemma throttled_remote_witness :
  (forall k p, exists e,
      Scenario.always (Scenario.rejects "quota exceeded") k p = inr e
      /\ Str.includes (messageOf e) "429" || Str.includes (messageOf e) "quota" = true)
  /\ App.error (fst (App.handleSubmit Scenario.parse
                       (Scenario.always (Scenario.rejects "quota exceeded"))
                       Scenario.sample)) = Some App.HIGH_TRAFFIC.
Proof.
  assert (Hall : forall k p, exists e,
      Scenario.always (Scenario.rejects "quota exceeded") k p = inr e
      /\ Str.includes (messageOf e) "429" || Str.includes (messageOf e) "quota" = true).
  { intros k p. exists (Error "quota exceeded"). split; reflexivity. }
  split; [exact Hall|].
  apply (throttled_remote_shows_high_traffic Scenario.parse
           (Scenario.always (Scenario.rejects "quota exceeded"))
           Scenario.sample
           {| App.base64 := "UklGRg=="; App.mimeType := "audio/wav" |}
           eq_refl Hall).
Defined.

Lemma formatTime_injective_witness :
  Uploader.formatTime 75 = Uploader.formatTime (60 + 15) /\ 75%nat = (60 + 15)%nat.
Proof.
  split; [reflexivity|].
  apply (formatTime_injective 75 (60 + 15)). reflexivity.
Defined.

Lemma convertToBase64_witness :
  Studio.reader (Uploader.data Studio.wav)
  = inl ("data:audio/wav;base64" ++ "," ++ "UklGRg==" ++ "")
  /\ Uploader.convertToBase64 Studio.reader (Uploader.data Studio.wav)
     = inl (Some "UklGRg==").
Proof.
  split; [reflexivity|].
  apply (convertToBase64_takes_second_field Studio.reader
           (Uploader.data Studio.wav) "data:audio/wav;base64" "UklGRg==" "");
    [reflexivity|reflexivity|reflexivity|now left].
Defined.

Lemma handleFile_gate_witness :
  Uploader.size (Uploader.data Studio.tenMiB) = 10485760%Z
  /\ In (Uploader.AudioReady
           (Some {| Uploader.base64 := Some "UklGRg==";
                    Uploader.mimeType := "audio/wav";
                    Uploader.blob := Uploader.data Studio.tenMiB |}))
        (snd (Uploader.handleFile Studio.reader Studio.objectURL
                Studio.tenMiB Uploader.initial)).
Proof.
  assert (Hsize : Uploader.size (Uploader.data Studio.tenMiB) = 10485760%Z).
  { unfold Uploader.size, Studio.tenMiB.
    cbn [Uploader.data Uploader.content].
    rewrite repeat_length. apply Z2Nat.id. lia. }
  split; [exact Hsize|].
  apply (proj2 (handleFile_gate Studio.reader Studio.objectURL
                  Studio.tenMiB Uploader.initial _)).
  split; [reflexivity|]. split; [rewrite Hsize; lia|].
  exists "data:audio/wav;base64,UklGRg==". split; reflexivity.
Defined.

Lemma handleFile_rejection_witness :
  Str.startsWith "audio/" (Uploader.type (Uploader.data Studio.pdf)) = false
  /\ Uploader.handleFile Studio.reader Studio.objectURL Studio.pdf Uploader.initial
     = (Uploader.initial, [Uploader.Alert "Please upload a valid audio file."]).
Proof.
  split; [reflexivity|].
  apply (handleFile_rejection Studio.reader Studio.objectURL
           Studio.pdf Uploader.initial).
  left. reflexivity.
Defined.

Lemma handleFile_payload_witness :
  Studio.reader (Uploader.data Studio.wav)
  = inl ("data:" ++ Uploader.type (Uploader.data Studio.wav) ++ ";base64," ++ "UklGRg==")
  /\ snd (Uploader.handleFile Studio.reader Studio.objectURL
            Studio.wav Uploader.initial)
     = [Uploader.AudioReady
          (Some {| Uploader.base64 := Some "UklGRg==";
                   Uploader.mimeType := "audio/wav";
                   Uploader.blob := Uploader.data Studio.wav |})].
Proof.
  split; [reflexivity|].
  rewrite (handleFile_announces_payload Studio.reader Studio.objectURL
             Studio.wav Uploader.initial "UklGRg==");
    try reflexivity.
  cbn. lia.
Defined.

Lemma handleFile_without_comma_witness :
  Str.includes "data:" "," = false
  /\ snd (Uploader.handleFile Studio.bareReader Studio.objectURL
            Studio.wav Uploader.initial)
     = [Uploader.AudioReady
          (Some {| Uploader.base64 := None;
                   Uploader.mimeType := "audio/wav";
                   Uploader.blob := Uploader.data Studio.wav |})].
Proof.
  split; [reflexivity|].
  apply (handleFile_without_comma Studio.bareReader Studio.objectURL
           Studio.wav Uploader.initial "data:");
    try reflexivity.
  cbn. lia.
Defined.

Lemma recording_session_witness :
  Studio.reader
    {| Uploader.type := "audio/webm";
       Uploader.content := [x1a; x45; xdf; x00]%byte |}
  = inl "data:audio/webm;base64,UklGRg=="
  /\ Uploader.recordingTime
       (fold_left (fun s d => Uploader.ondataavailable d s)
          [Studio.chunk [x00]%byte]
          (fst (Uploader.stopRecording
                  (fold_left (fun s ev => Uploader.during ev s) Studio.take
                     (fst (Uploader.startRecording (inl 7%Z) Uploader.initial))))))
     = 2%nat.
Proof.
  split; [reflexivity|].
  apply (recording_session Studio.reader Studio.objectURL
           Uploader.initial 7%Z Studio.take [Studio.chunk [x00]%byte]
           "data:audio/webm;base64,UklGRg==").
  reflexivity.
Defined.

Lemma uploaded_file_witness :
  Str.startsWith "audio/" (Uploader.type (Uploader.data Studio.wav)) = true
  /\ exists ast',
       receiveAll (snd (Uploader.handleFile Studio.reader Studio.objectURL
                          Studio.wav Uploader.initial)) Scenario.sample
       = Some ast'
       /\ calls (snd (App.handleSubmit Scenario.parse
                        (Scenario.always (Scenario.body Scenario.goodBody))
                        ast')) <> [].
Proof.
  split; [reflexivity|].
  destruct (uploaded_file_is_what_is_sent Scenario.parse
              (Scenario.always (Scenario.body Scenario.goodBody))
              Studio.reader Studio.objectURL
              Studio.wav Uploader.initial Scenario.sample "UklGRg==")
    as (ast' & Hrecv & Hcalls & _);
    try reflexivity.
  - cbn. lia.
  - exists ast'. now split.
Defined.
